(** * Expense tracker ledger: a shallow embedding of [expense.py]

    The development follows the class [ExpenseTracker]: the data model
    ([TransactionType], [Transaction], the budget-limit dictionary), the
    persistence pair [load_data] / [save_data], the commands
    [add_transaction], [set_budget_limit], [delete_transaction] and the
    queries [get_category_spending], [check_budget_alerts],
    [calculate_profit_loss], [get_monthly_summary], [search_transactions].

    Modelling choices.
    - Python numbers (the [amount] field is an [int] or a [float]) are an
      abstract type [num] with the operations the code uses ([PyNum]); the
      sums are written as the left-to-right accumulation the loops perform,
      so no algebraic law of addition is needed.  Rationals are the instance
      used in the examples.
    - Library calls on strings ([str.lower], [datetime.strptime],
      [datetime.strftime]) are an interface ([PyLib]); an ASCII instance is
      used in the examples.
    - A Python [dict] is an association list in insertion order, with
      [dict_setitem] overwriting in place and appending new keys.
    - A method is a computation in a state-and-exception monad over the
      object and the backing file.  The JSON text codec is not modelled:
      the file either is missing, holds text [json.load] rejects, or holds a
      document of the shape [save_data] writes, each key possibly absent. *)

From Stdlib Require Import List String Ascii ZArith QArith Bool Lia Lqa Sorted.
From Stdlib Require OrderedTypeEx.
Import ListNotations.

Local Open Scope Z_scope.

(** ** Python numbers and library calls *)

Class PyNum (num : Type) : Type := {
  lit : Z -> num;                 (* integer literal *)
  add : num -> num -> num;        (* a + b *)
  sub : num -> num -> num;        (* a - b *)
  mul : num -> num -> num;        (* a * b *)
  truediv : num -> num -> num;    (* a / b *)
  gt : num -> num -> bool         (* a > b *)
}.

Record datetime : Set := mkDatetime { dt_year : Z; dt_month : Z; dt_day : Z }.

Class PyLib : Type := {
  lower : string -> string;                  (* str.lower() *)
  strptime_Ymd : string -> option datetime;  (* strptime(s, "%Y-%m-%d"), None on ValueError *)
  strftime_Ym : datetime -> string           (* d.strftime("%Y-%m") *)
}.

(** ** Exceptions *)

Inductive exn : Set :=
| FileNotFoundError
| JSONDecodeError
| KeyError (key : string)
| ValueError.

Inductive Outcome (A : Type) : Type :=
| Return (a : A)
| Raise (e : exn).
Arguments Return {A} a.
Arguments Raise {A} e.

(** ** Dictionaries with string keys, in insertion order *)

Definition pydict (V : Type) : Type := list (string * V).

Fixpoint dict_lookup {V : Type} (d : pydict V) (k : string) : option V :=
  match d with
  | [] => None
  | (k', v) :: rest => if String.eqb k' k then Some v else dict_lookup rest k
  end.

(** [d.get(k, default)] *)
Definition dict_get {V : Type} (d : pydict V) (k : string) (default : V) : V :=
  match dict_lookup d k with
  | Some v => v
  | None => default
  end.

(** [k in d] *)
Definition dict_contains {V : Type} (d : pydict V) (k : string) : bool :=
  match dict_lookup d k with
  | Some _ => true
  | None => false
  end.

(** [d[k] = v] *)
Fixpoint dict_setitem {V : Type} (d : pydict V) (k : string) (v : V) : pydict V :=
  match d with
  | [] => [(k, v)]
  | (k', v') :: rest =>
      if String.eqb k' k then (k', v) :: rest
      else (k', v') :: dict_setitem rest k v
  end.

Definition dict_keys {V : Type} (d : pydict V) : list string := map fst d.

(** ** Strings *)

(** [needle in hay] for [str]: substring test. *)
Fixpoint str_in (needle hay : string) : bool :=
  String.prefix needle hay ||
  match hay with
  | EmptyString => false
  | String _ rest => str_in needle rest
  end.

(** [s[:n]] *)
Definition str_take (n : nat) (s : string) : string := String.substring 0 n s.

(** [x in [a, b, ...]] for a list of strings. *)
Definition str_mem (x : string) (l : list string) : bool :=
  existsb (String.eqb x) l.

(** ** Data model *)

Inductive TransactionType : Set := INCOME | EXPENSE.

(** [t.value] *)
Definition TransactionType_value (t : TransactionType) : string :=
  match t with
  | INCOME => "income"
  | EXPENSE => "expense"
  end.

(** [TransactionType(v)]: lookup by value, [ValueError] when no member has it. *)
Definition TransactionType_of_value (v : string) : Outcome TransactionType :=
  if String.eqb v "income" then Return INCOME
  else if String.eqb v "expense" then Return EXPENSE
  else Raise ValueError.

Definition TransactionType_eqb (a b : TransactionType) : bool :=
  match a, b with
  | INCOME, INCOME | EXPENSE, EXPENSE => true
  | _, _ => false
  end.

Section Ledger.

Context {num : Type} {NUM : PyNum num} {LIB : PyLib}.

Record Transaction : Type := mkTransaction {
  id : Z;
  type : TransactionType;
  amount : num;
  category : string;
  description : string;
  date : string;
  tags : list string
}.

(** The dataclass constructor followed by [__post_init__]. *)
Definition Transaction_init (id0 : Z) (type0 : TransactionType) (amount0 : num)
    (category0 description0 date0 : string) (tags0 : option (list string))
  : Transaction :=
  mkTransaction id0 type0 amount0 category0 description0 date0
    (match tags0 with
     | None => []
     | Some l => l
     end).

(** The attributes of [ExpenseTracker] that methods assign. *)
Record ExpenseTracker : Type := mkExpenseTracker {
  transactions : list Transaction;
  budget_limits : pydict num
}.

(** One element of the ["transactions"] array of the persisted document;
    [None] is an absent key. *)
Record TransactionItem : Type := mkItem {
  item_id : option Z;
  item_type : option string;
  item_amount : option num;
  item_category : option string;
  item_description : option string;
  item_date : option string;
  item_tags : option (list string)
}.

Record Document : Type := mkDocument {
  doc_transactions : option (list TransactionItem);
  doc_budget_limits : option (pydict num)
}.

(** The file named by [data_file]. *)
Inductive Backing : Type :=
| NoFile
| Unparseable
| Holds (doc : Document).

Record World : Type := mkWorld {
  self : ExpenseTracker;
  disk : Backing
}.

(** ** The monad of methods *)

Definition M (A : Type) : Type := World -> Outcome A * World.

Definition ret {A : Type} (a : A) : M A := fun w => (Return a, w).

Definition bind {A B : Type} (m : M A) (k : A -> M B) : M B :=
  fun w =>
    match m w with
    | (Return a, w') => k a w'
    | (Raise e, w') => (Raise e, w')
    end.

(** [try: m except FileNotFoundError: h] *)
Definition try_except_FileNotFound {A : Type} (m : M A) (h : M A) : M A :=
  fun w =>
    match m w with
    | (Raise FileNotFoundError, w') => h w'
    | r => r
    end.

Definition lift {A : Type} (o : Outcome A) : M A := fun w => (o, w).

Definition get_transactions : M (list Transaction) :=
  fun w => (Return (transactions (self w)), w).

Definition get_budget_limits : M (pydict num) :=
  fun w => (Return (budget_limits (self w)), w).

Definition set_transactions (l : list Transaction) : M unit :=
  fun w => (Return tt,
            mkWorld (mkExpenseTracker l (budget_limits (self w))) (disk w)).

Definition set_budget_limits (d : pydict num) : M unit :=
  fun w => (Return tt,
            mkWorld (mkExpenseTracker (transactions (self w)) d) (disk w)).

(** [open(data_file, 'r')] then [json.load]. *)
Definition read_document : M Document :=
  fun w =>
    match disk w with
    | NoFile => (Raise FileNotFoundError, w)
    | Unparseable => (Raise JSONDecodeError, w)
    | Holds doc => (Return doc, w)
    end.

(** [open(data_file, 'w')] then [json.dump], on a file that can be written:
    the write completes.  A write that fails (an [OSError] from [open]) is
    not modelled; it would surface after the attribute was assigned. *)
Definition write_document (doc : Document) : M unit :=
  fun w => (Return tt, mkWorld (self w) (Holds doc)).

Definition obind {A B : Type} (o : Outcome A) (k : A -> Outcome B) : Outcome B :=
  match o with
  | Return a => k a
  | Raise e => Raise e
  end.

Notation "x <- m ;; k" := (bind m (fun x => k))
  (at level 61, m at next level, right associativity).
Notation "m ;;; k" := (bind m (fun _ => k))
  (at level 61, right associativity).
Notation "x <-? o ;; k" := (obind o (fun x => k))
  (at level 61, o at next level, right associativity).

(** A [for] loop over a list threading the local variables [s]; an exception
    in the body leaves the loop. *)
Fixpoint for_each {A S : Type} (body : S -> A -> Outcome S) (l : list A) (s : S)
  : Outcome S :=
  match l with
  | [] => Return s
  | x :: rest =>
      match body s x with
      | Return s' => for_each body rest s'
      | Raise e => Raise e
      end
  end.

(** A list comprehension [[f(x) for x in l]] whose element expression may raise. *)
Fixpoint comprehension {A B : Type} (f : A -> Outcome B) (l : list A)
  : Outcome (list B) :=
  match l with
  | [] => Return []
  | x :: rest =>
      y <-? f x ;;
      ys <-? comprehension f rest ;;
      Return (y :: ys)
  end.

(** [item[key]] on a JSON object. *)
Definition getitem {A : Type} (key : string) (field : option A) : Outcome A :=
  match field with
  | Some a => Return a
  | None => Raise (KeyError key)
  end.

(** [data.get(key, default)] on a JSON object. *)
Definition get_default {A : Type} (field : option A) (default : A) : A :=
  match field with
  | Some a => a
  | None => default
  end.

(** [datetime.datetime.strptime(s, "%Y-%m-%d")] *)
Definition strptime (s : string) : Outcome datetime :=
  match strptime_Ymd s with
  | Some d => Return d
  | None => Raise ValueError
  end.

(** ** Persistence *)

Definition load_item (item : TransactionItem) : Outcome Transaction :=
  id0 <-? getitem "id" (item_id item) ;;
  v <-? getitem "type" (item_type item) ;;
  type0 <-? TransactionType_of_value v ;;
  amount0 <-? getitem "amount" (item_amount item) ;;
  category0 <-? getitem "category" (item_category item) ;;
  description0 <-? getitem "description" (item_description item) ;;
  date0 <-? getitem "date" (item_date item) ;;
  Return (Transaction_init id0 type0 amount0 category0 description0 date0
            (Some (get_default (item_tags item) []))).

Definition load_data : M unit :=
  try_except_FileNotFound
    (data <- read_document ;;
     txs <- lift (comprehension load_item
                    (get_default (doc_transactions data) [])) ;;
     set_transactions txs ;;;
     set_budget_limits (get_default (doc_budget_limits data) []))
    (set_transactions [] ;;;
     set_budget_limits []).

Definition save_item (t : Transaction) : TransactionItem :=
  mkItem (Some (id t)) (Some (TransactionType_value (type t)))
         (Some (amount t)) (Some (category t)) (Some (description t))
         (Some (date t)) (Some (tags t)).

Definition save_data : M unit :=
  txs <- get_transactions ;;
  limits <- get_budget_limits ;;
  write_document (mkDocument (Some (map save_item txs)) (Some limits)).

(** [ExpenseTracker(data_file)]: the attributes start empty, then [load_data]. *)
Definition ExpenseTracker_init (file : Backing) : Outcome unit * World :=
  load_data (mkWorld (mkExpenseTracker [] []) file).

(** ** Commands *)

Definition get_next_id : M Z :=
  txs <- get_transactions ;;
  match map id txs with
  | [] => ret 1
  | i :: rest => ret (fold_left Z.max rest i + 1)
  end.

(** [today] is [datetime.datetime.now().strftime("%Y-%m-%d")]. *)
Definition add_transaction (today : string) (type0 : TransactionType)
    (amount0 : num) (category0 description0 : string)
    (tags0 : option (list string)) : M Transaction :=
  let tags1 := match tags0 with
               | None => []
               | Some l => l
               end in
  next <- get_next_id ;;
  let transaction :=
    Transaction_init next type0 amount0 category0 description0 today (Some tags1) in
  txs <- get_transactions ;;
  set_transactions (txs ++ [transaction]) ;;;
  save_data ;;;
  ret transaction.

Definition set_budget_limit (category0 : string) (limit : num) : M unit :=
  limits <- get_budget_limits ;;
  set_budget_limits (dict_setitem limits category0 limit) ;;;
  save_data.

Definition delete_transaction (transaction_id : Z) : M unit :=
  txs <- get_transactions ;;
  set_transactions (filter (fun t => negb (id t =? transaction_id)) txs) ;;;
  save_data.

(** ** Queries *)

(** [month is None or trans_date.strftime("%Y-%m") == month] *)
Definition month_matches (month : option string) (trans_date : datetime) : bool :=
  match month with
  | None => true
  | Some m => String.eqb (strftime_Ym trans_date) m
  end.

Definition category_spending_body (month : option string)
    (spending : pydict num) (transaction : Transaction) : Outcome (pydict num) :=
  if TransactionType_eqb (type transaction) EXPENSE then
    trans_date <-? strptime (date transaction) ;;
    if month_matches month trans_date then
      Return (dict_setitem spending (category transaction)
                (add (dict_get spending (category transaction) (lit 0))
                     (amount transaction)))
    else Return spending
  else Return spending.

Definition get_category_spending (month : option string) : M (pydict num) :=
  txs <- get_transactions ;;
  lift (for_each (category_spending_body month) txs []).

Record Alert : Type := mkAlert {
  alert_category : string;
  alert_limit : num;
  alert_spent : num;
  alert_exceeded_by : num
}.

Definition budget_alerts_body (category_spending : pydict num)
    (alerts : list Alert) (entry : string * num) : list Alert :=
  let (category0, limit) := entry in
  let spent := dict_get category_spending category0 (lit 0) in
  if gt spent limit then
    alerts ++ [mkAlert category0 limit spent (sub spent limit)]
  else alerts.

Definition check_budget_alerts (month : option string) : M (list Alert) :=
  category_spending <- get_category_spending month ;;
  limits <- get_budget_limits ;;
  ret (fold_left (budget_alerts_body category_spending) limits []).

Record ProfitLoss : Type := mkProfitLoss {
  total_income : num;
  total_expenses : num;
  net_profit : num;
  profit_margin : num;
  is_profitable : bool
}.

Definition profit_loss_body (month : option string)
    (totals : num * num) (transaction : Transaction) : Outcome (num * num) :=
  let (income0, expenses0) := totals in
  trans_date <-? strptime (date transaction) ;;
  if month_matches month trans_date then
    if TransactionType_eqb (type transaction) INCOME then
      Return (add income0 (amount transaction), expenses0)
    else
      Return (income0, add expenses0 (amount transaction))
  else Return (income0, expenses0).

Definition calculate_profit_loss (month : option string) : M ProfitLoss :=
  txs <- get_transactions ;;
  totals <- lift (for_each (profit_loss_body month) txs (lit 0, lit 0)) ;;
  let (income0, expenses0) := totals in
  let net := sub income0 expenses0 in
  let margin := if gt income0 (lit 0)
                then mul (truediv net income0) (lit 100)
                else lit 0 in
  ret (mkProfitLoss income0 expenses0 net margin (gt net (lit 0))).

Record MonthTotals : Type := mkMonthTotals {
  income : num;
  expenses : num
}.

Definition monthly_summary_body (monthly_data : pydict MonthTotals)
    (transaction : Transaction) : pydict MonthTotals :=
  let month := str_take 7 (date transaction) in
  let fresh := mkMonthTotals (lit 0) (lit 0) in
  let monthly_data1 :=
    if dict_contains monthly_data month then monthly_data
    else dict_setitem monthly_data month fresh in
  (* [monthly_data[month]]: the key is present at this point *)
  let entry := dict_get monthly_data1 month fresh in
  if TransactionType_eqb (type transaction) INCOME then
    dict_setitem monthly_data1 month
      (mkMonthTotals (add (income entry) (amount transaction)) (expenses entry))
  else
    dict_setitem monthly_data1 month
      (mkMonthTotals (income entry) (add (expenses entry) (amount transaction))).

Definition get_monthly_summary : M (pydict MonthTotals) :=
  txs <- get_transactions ;;
  ret (fold_left monthly_summary_body txs []).

(** [query.lower() in transaction.description.lower()] *)
Definition description_matches (query : string) (t : Transaction) : bool :=
  str_in (lower query) (lower (description t)).

(** [any(query.lower() in tag.lower() for tag in transaction.tags)] *)
Definition tags_match (query : string) (t : Transaction) : bool :=
  existsb (fun tag => str_in (lower query) (lower tag)) (tags t).

Definition search_body (query search_type : string)
    (results : list Transaction) (transaction : Transaction) : list Transaction :=
  if str_mem search_type ["all"; "description"]%string
     && description_matches query transaction
  then results ++ [transaction]
  else if str_mem search_type ["all"; "tags"]%string
          && tags_match query transaction
  then results ++ [transaction]
  else results.

Definition search_transactions (query search_type : string)
  : M (list Transaction) :=
  txs <- get_transactions ;;
  ret (fold_left (search_body query search_type) txs []).

End Ledger.

(** ** Vocabulary of the specification *)

(** Laws of [>] on Python numbers that the statements about strictness and
    about a loss rely on. *)
Class PyNumLaws (num : Type) {NUM : PyNum num} : Prop := {
  gt_irrefl : forall x : num, gt x x = false;
  gt_sub_nonpos : forall a b : num,
    gt a (lit 0) = false -> gt b (lit 0) = true -> gt (sub a b) (lit 0) = false
}.

(** Laws of sums of numbers above zero. *)
Class PyNumPositive (num : Type) {NUM : PyNum num} : Prop := {
  add_zero_pos : forall b : num,
    gt b (lit 0) = true -> gt (add (lit 0) b) (lit 0) = true;
  add_pos_pos : forall a b : num,
    gt a (lit 0) = true -> gt b (lit 0) = true ->
    gt (add a b) (lit 0) = true
}.

Section Vocabulary.

Context {num : Type} {NUM : PyNum num} {LIB : PyLib}.

(** The date of a transaction is a calendar day in the format the ledger
    writes, as the data model requires. *)
Definition date_ok (t : @Transaction num) : Prop :=
  strptime_Ymd (date t) <> None.

Definition dates_ok (w : @World num) : Prop :=
  Forall date_ok (transactions (self w)).

(** The date of [t] falls in the year-month [month]: with the month omitted
    every transaction is in range; with the month [m] given, those whose
    date is a calendar day that [strftime("%Y-%m")] writes as [m].  Stated
    on its own, not through the test of the loops. *)
Definition in_range (month : option string) (t : @Transaction num) : bool :=
  match month with
  | None => true
  | Some m =>
      match strptime_Ymd (date t) with
      | Some day => String.eqb m (strftime_Ym day)
      | None => false
      end
  end.

(** The date of every expense is a calendar day. *)
Definition expense_dates_ok (w : @World num) : Prop :=
  Forall (fun t => type t = EXPENSE -> date_ok t) (transactions (self w)).

(** Every amount is above zero, as the data model has it. *)
Definition amounts_positive (w : @World num) : Prop :=
  Forall (fun t => gt (amount t) (lit 0) = true) (transactions (self w)).

(** [x] is neither above nor below zero. *)
Definition is_zero (x : num) : bool :=
  negb (gt x (lit 0)) && negb (gt (lit 0) x).

(** [text] contains [query], case being ignored: the lower-cased text
    splits around the lower-cased query. *)
Definition contains_ignoring_case (query text : string) : Prop :=
  exists pre post : string,
    lower text = (pre ++ lower query ++ post)%string.

Definition is_kind (k : TransactionType) (t : @Transaction num) : bool :=
  TransactionType_eqb (type t) k.

(** An expense of category [c] in range. *)
Definition expense_of (month : option string) (c : string)
    (t : @Transaction num) : bool :=
  is_kind EXPENSE t && in_range month t && String.eqb (category t) c.

(** A transaction of kind [k] in range. *)
Definition kind_in_range (month : option string) (k : TransactionType)
    (t : @Transaction num) : bool :=
  is_kind k t && in_range month t.

(** The sum of the amounts of [l], accumulated from [start] in list order. *)
Definition sum_from (start : num) (l : list (@Transaction num)) : num :=
  fold_left add (map amount l) start.

Definition sum_amounts (l : list (@Transaction num)) : num :=
  sum_from (lit 0) l.

(** The three documented search modes and their predicates. *)
Inductive SearchMode : Set := ModeAll | ModeDescription | ModeTags.

Definition mode_name (m : SearchMode) : string :=
  match m with
  | ModeAll => "all"
  | ModeDescription => "description"
  | ModeTags => "tags"
  end.

Definition mode_selects (m : SearchMode) (query : string)
    (t : @Transaction num) : bool :=
  match m with
  | ModeAll => description_matches query t || tags_match query t
  | ModeDescription => description_matches query t
  | ModeTags => tags_match query t
  end.

(** What each mode is to select, in the words of the specification. *)
Definition selected (m : SearchMode) (query : string)
    (t : @Transaction num) : Prop :=
  match m with
  | ModeAll =>
      contains_ignoring_case query (description t) \/
      exists tag, In tag (tags t) /\ contains_ignoring_case query tag
  | ModeDescription => contains_ignoring_case query (description t)
  | ModeTags =>
      exists tag, In tag (tags t) /\ contains_ignoring_case query tag
  end.

(** The arguments of one call of [add_transaction], with the day it runs. *)
Record AddCall : Type := mkAddCall {
  call_today : string;
  call_type : TransactionType;
  call_amount : num;
  call_category : string;
  call_description : string;
  call_tags : option (list string)
}.

Definition run_add (c : AddCall) : @M num (@Transaction num) :=
  add_transaction (call_today c) (call_type c) (call_amount c)
    (call_category c) (call_description c) (call_tags c).

(** A sequence of [add_transaction] calls: the records returned, in call
    order, and the final state.  A call that raises ends the sequence. *)
Fixpoint add_all (calls : list AddCall) (w : @World num)
  : list (@Transaction num) * @World num :=
  match calls with
  | [] => ([], w)
  | c :: rest =>
      match run_add c w with
      | (Return t, w') =>
          let (ts, w'') := add_all rest w' in (t :: ts, w'')
      | (Raise _, w') => ([], w')
      end
  end.

End Vocabulary.

(** ** Reference instances *)

(** Exact rational arithmetic as an instance of Python numbers. *)
Definition Qgt_bool (a b : Q) : bool := negb (Qle_bool a b).

#[export] Instance Q_PyNum : PyNum Q := {|
  lit := inject_Z;
  add := Qplus;
  sub := Qminus;
  mul := Qmult;
  truediv := Qdiv;
  gt := Qgt_bool
|}.

(** ASCII strings: [lower] on the letters A-Z, dates with ASCII digits. *)
Definition ascii_lower (c : ascii) : ascii :=
  let n := N_of_ascii c in
  if ((65 <=? n) && (n <=? 90))%N then ascii_of_N (n + 32) else c.

Fixpoint ascii_str_lower (s : string) : string :=
  match s with
  | EmptyString => EmptyString
  | String c rest => String (ascii_lower c) (ascii_str_lower rest)
  end.

Definition digit (c : ascii) : option Z :=
  let n := Z.of_N (N_of_ascii c) in
  if (48 <=? n) && (n <=? 57) then Some (n - 48) else None.

Definition is_leap (y : Z) : bool :=
  (y mod 4 =? 0) && (negb (y mod 100 =? 0) || (y mod 400 =? 0)).

Definition days_in_month (y m : Z) : Z :=
  if m =? 2 then (if is_leap y then 29 else 28)
  else if (m =? 4) || (m =? 6) || (m =? 9) || (m =? 11) then 30
  else 31.

(** The directive [%m]: the alternatives [1[0-2]], [0[1-9]], [[1-9]] in order. *)
Definition parse_month (l : list ascii) : option (Z * list ascii) :=
  match l with
  | [] => None
  | a :: tl =>
      match digit a with
      | None => None
      | Some x =>
          let one := if 1 <=? x then Some (x, tl) else None in
          match tl with
          | [] => one
          | b :: tl' =>
              match digit b with
              | None => one
              | Some y =>
                  if (x =? 1) && (y <=? 2) then Some (10 + y, tl')
                  else if (x =? 0) && (1 <=? y) then Some (y, tl')
                  else one
              end
          end
      end
  end.

(** The directive [%d]: [3[01]], [[12]\d], [0[1-9]], [[1-9]], [ [1-9]] in order. *)
Definition parse_day (l : list ascii) : option (Z * list ascii) :=
  match l with
  | [] => None
  | a :: tl =>
      let second := match tl with
                    | [] => None
                    | b :: tl' => match digit b with
                                  | Some y => Some (y, tl')
                                  | None => None
                                  end
                    end in
      match digit a with
      | None =>
          if Ascii.eqb a " " then
            match second with
            | Some (y, tl') => if 1 <=? y then Some (y, tl') else None
            | None => None
            end
          else None
      | Some x =>
          let one := if 1 <=? x then Some (x, tl) else None in
          match second with
          | None => one
          | Some (y, tl') =>
              if (x =? 3) && (y <=? 1) then Some (30 + y, tl')
              else if (1 <=? x) && (x <=? 2) then Some (10 * x + y, tl')
              else if (x =? 0) && (1 <=? y) then Some (y, tl')
              else one
          end
      end
  end.

Definition ascii_strptime_Ymd (s : string) : option datetime :=
  match list_ascii_of_string s with
  | y1 :: y2 :: y3 :: y4 :: dash1 :: tl =>
      match digit y1, digit y2, digit y3, digit y4 with
      | Some a, Some b, Some c, Some d =>
          let y := 1000 * a + 100 * b + 10 * c + d in
          if negb (Ascii.eqb dash1 "-") then None
          else
            match parse_month tl with
            | Some (m, dash2 :: tl') =>
                if negb (Ascii.eqb dash2 "-") then None
                else
                  match parse_day tl' with
                  | Some (d0, []) =>
                      if (1 <=? y) && (d0 <=? days_in_month y m)
                      then Some (mkDatetime y m d0)
                      else None
                  | _ => None
                  end
            | _ => None
            end
      | _, _, _, _ => None
      end
  | _ => None
  end.

Definition digit_char (n : Z) : ascii := ascii_of_N (Z.to_N (48 + n mod 10)).

Definition ascii_strftime_Ym (d : datetime) : string :=
  let y := dt_year d in
  let m := dt_month d in
  String (digit_char (y / 1000)) (String (digit_char (y / 100))
    (String (digit_char (y / 10)) (String (digit_char y)
      (String "-" (String (digit_char (m / 10)) (String (digit_char m) EmptyString)))))).

#[export] Instance ascii_PyLib : PyLib := {|
  lower := ascii_str_lower;
  strptime_Ymd := ascii_strptime_Ymd;
  strftime_Ym := ascii_strftime_Ym
|}.

(** ** Sample ledgers *)

Definition QTransaction : Type := @Transaction Q.
Definition QWorld : Type := @World Q.

(** The sample data of [demo_setup], with the date of the run made explicit. *)
Definition demo_transactions : list QTransaction :=
  [ mkTransaction 1 INCOME (5000 # 1) "Salary" "Monthly salary" "2024-03-05"
      ["salary"; "work"]%string;
    mkTransaction 2 INCOME (500 # 1) "Freelance" "Web development project"
      "2024-03-05" ["freelance"; "programming"]%string;
    mkTransaction 3 EXPENSE (150 # 1) "Food" "Groceries" "2024-03-05"
      ["groceries"; "supermarket"]%string;
    mkTransaction 4 EXPENSE (75 # 1) "Food" "Restaurant dinner" "2024-03-05"
      ["dining"; "restaurant"]%string;
    mkTransaction 5 EXPENSE (50 # 1) "Transport" "Gas" "2024-04-01"
      ["car"; "fuel"]%string ].

Definition demo_limits : pydict Q :=
  [ ("Food"%string, 200 # 1); ("Transport"%string, 50 # 1);
    ("Entertainment"%string, 200 # 1) ].

Definition demo_world : QWorld :=
  mkWorld (mkExpenseTracker demo_transactions demo_limits) NoFile.

Definition empty_world : QWorld :=
  mkWorld (mkExpenseTracker [] []) NoFile.

(** A ledger with expenses and no income. *)
Definition expenses_only_world : QWorld :=
  mkWorld
    (mkExpenseTracker
       [ mkTransaction 1 EXPENSE (150 # 1) "Food" "Groceries" "2024-03-05" [];
         mkTransaction 2 EXPENSE (50 # 1) "Transport" "Gas" "2024-04-01" [] ]
       [])
    NoFile.

(** A ledger whose only transaction is an income of a negative amount;
    [add_transaction] accepts it, the check of the sign being in the form. *)
Definition negative_income_world : QWorld :=
  mkWorld
    (mkExpenseTracker
       [ mkTransaction 1 INCOME (-10 # 1) "Other Income" "Chargeback"
           "2024-03-05" [] ]
       [])
    NoFile.

(** A ledger whose only transaction is an expense of a negative amount. *)
Definition negative_expense_world : QWorld :=
  mkWorld
    (mkExpenseTracker
       [ mkTransaction 1 EXPENSE (-5 # 1) "Shopping" "Returned goods"
           "2024-03-05" [] ]
       [])
    NoFile.

Definition search_world : QWorld :=
  mkWorld
    (mkExpenseTracker
       [ mkTransaction 1 EXPENSE (75 # 1) "Food" "Restaurant dinner"
           "2024-03-05" ["dining"]%string;
         mkTransaction 2 EXPENSE (20 # 1) "Food" "Lunch with the team"
           "2024-03-06" ["restaurant"]%string ]
       [])
    NoFile.

Definition demo_calls : list (@AddCall Q) :=
  [ mkAddCall "2024-03-05" INCOME (5000 # 1) "Salary" "Monthly salary"
      (Some ["salary"; "work"]%string);
    mkAddCall "2024-03-05" EXPENSE (150 # 1) "Food" "Groceries" None;
    mkAddCall "2024-03-06" EXPENSE (50 # 1) "Transport" "Gas"
      (Some ["car"; "fuel"]%string) ].

(** A document whose second transaction has a kind the enumeration lacks. *)
Definition transfer_item : @TransactionItem Q :=
  mkItem (Some 2) (Some "transfer"%string) (Some (40 # 1))
    (Some "Other"%string) (Some "Moved to savings"%string)
    (Some "2024-03-07"%string) (Some []).

Definition transfer_document : @Document Q :=
  mkDocument
    (Some [ save_item (mkTransaction 1 INCOME (500 # 1) "Freelance"
                         "Web development project" "2024-03-05" []);
            transfer_item ])
    (Some demo_limits).

(** ** The report and the month list *)

(** The plotting calls of [generate_spending_report] (the subplots, the pie
    and the bar chart, the value labels, the layout) as one library call on
    the dictionary; the figure is opaque. *)
Class PyPlot (num : Type) : Type := {
  Figure : Type;
  plot_spending : pydict num -> Outcome Figure
}.

Section Reports.

Context {num : Type} {NUM : PyNum num} {LIB : PyLib} {PLOT : PyPlot num}.

Definition generate_spending_report (month : option string)
  : @M num (option Figure) :=
  bind (get_category_spending month) (fun category_spending =>
    match category_spending with
    | [] => ret None
    | _ :: _ =>
        bind (lift (plot_spending category_spending)) (fun fig =>
          ret (Some fig))
    end).

(** [months.add(month)], the set being kept as a list without duplicates. *)
Definition set_add (x : string) (s : list string) : list string :=
  if str_mem x s then s else (s ++ [x])%list.

(** [sorted(s, reverse=True)] on strings, by insertion. *)
Fixpoint insert_reverse (x : string) (l : list string) : list string :=
  match l with
  | [] => [x]
  | y :: rest =>
      if String.leb y x then x :: l else y :: insert_reverse x rest
  end.

Definition sorted_reverse (l : list string) : list string :=
  fold_right insert_reverse [] l.

(** [ExpenseTrackerGUI.get_available_months], which reads the ledger only. *)
Definition get_available_months : @M num (list string) :=
  bind get_transactions (fun txs =>
    ret (sorted_reverse
           (fold_left (fun months transaction =>
                         set_add (str_take 7 (date transaction)) months)
              txs []))).

End Reports.

(** ** Further vocabulary *)

Section MoreVocabulary.

Context {num : Type} {NUM : PyNum num} {LIB : PyLib}.

(** The key of a transaction in the monthly summary. *)
Definition month_key (t : @Transaction num) : string :=
  str_take 7 (date t).

(** [t] falls under the key [m] and is an income ([income0 = true]) or is
    not one ([income0 = false]). *)
Definition summary_entry (m : string) (income0 : bool)
    (t : @Transaction num) : bool :=
  String.eqb (month_key t) m && Bool.eqb (is_kind INCOME t) income0.

Definition under_key (m : string) (t : @Transaction num) : bool :=
  String.eqb (month_key t) m.

(** The entry of the limits is exceeded under the spending [sp]. *)
Definition exceeded (sp : pydict num) (entry : string * num) : bool :=
  gt (dict_get sp (fst entry) (lit 0)) (snd entry).

Definition alert_of (sp : pydict num) (entry : string * num) : @Alert num :=
  mkAlert (fst entry) (snd entry) (dict_get sp (fst entry) (lit 0))
    (sub (dict_get sp (fst entry) (lit 0)) (snd entry)).

(** The six keys [load_data] indexes are present and the kind is a member
    of the enumeration. *)
Definition item_ok (item : @TransactionItem num) : bool :=
  match item_id item, item_type item, item_amount item,
        item_category item, item_description item, item_date item with
  | Some _, Some v, Some _, Some _, Some _, Some _ =>
      String.eqb v "income" || String.eqb v "expense"
  | _, _, _, _, _, _ => false
  end.

(** The document with every optional key written out. *)
Definition normal_item (item : @TransactionItem num) : @TransactionItem num :=
  mkItem (item_id item) (item_type item) (item_amount item)
    (item_category item) (item_description item) (item_date item)
    (Some (get_default (item_tags item) [])).

Definition normal_document (doc : @Document num) : @Document num :=
  mkDocument
    (Some (map normal_item (get_default (doc_transactions doc) [])))
    (Some (get_default (doc_budget_limits doc) [])).

End MoreVocabulary.

(** The elements of [l] not in [seen], each at its first occurrence. *)
Fixpoint first_seen (seen l : list string) : list string :=
  match l with
  | [] => []
  | x :: rest =>
      if str_mem x seen then first_seen seen rest
      else x :: first_seen (seen ++ [x]) rest
  end.

(** ** Further samples *)

(** A plotting instance for the examples: the figure is the data plotted,
    and a negative wedge makes the pie chart raise. *)
#[export] Instance Q_PyPlot : PyPlot Q := {|
  Figure := pydict Q;
  plot_spending := fun sp =>
    if existsb (fun entry => Qgt_bool 0 (snd entry)) sp
    then Raise ValueError
    else Return sp
|}.

(** An expense dated with a day that does not exist. *)
Definition feb30_expense_world : QWorld :=
  mkWorld
    (mkExpenseTracker
       [ mkTransaction 1 EXPENSE (20 # 1) "Food" "Lunch" "2024-02-30" [] ]
       [("Food"%string, 10 # 1)])
    NoFile.

(** An income dated with a day that does not exist, next to a sound
    expense. *)
Definition feb30_income_world : QWorld :=
  mkWorld
    (mkExpenseTracker
       [ mkTransaction 1 INCOME (500 # 1) "Freelance" "Invoice" "2024-02-30" [];
         mkTransaction 2 EXPENSE (20 # 1) "Food" "Lunch" "2024-02-28" [] ]
       [])
    NoFile.

(** A document without budget limits whose only transaction has no tags. *)
Definition bare_item : @TransactionItem Q :=
  mkItem (Some 7) (Some "expense"%string) (Some (12 # 1))
    (Some "Transport"%string) (Some "Bus"%string)
    (Some "2024-03-09"%string) None.

Definition bare_document : @Document Q :=
  mkDocument (Some [bare_item]) None.

(** A document whose second transaction lacks its amount. *)
Definition no_amount_item : @TransactionItem Q :=
  mkItem (Some 8) (Some "expense"%string) None
    (Some "Transport"%string) (Some "Taxi"%string)
    (Some "2024-03-10"%string) (Some []).

Definition no_amount_document : @Document Q :=
  mkDocument (Some [bare_item; no_amount_item; transfer_item]) None.

(** * Properties *)

(** ** Dictionaries *)

Lemma dict_lookup_setitem {V : Type} (d : pydict V) (k c : string) (v : V) :
  dict_lookup (dict_setitem d k v) c =
  if String.eqb k c then Some v else dict_lookup d c.
Proof.
  induction d as [|[k' v'] d IH]; simpl.
  - reflexivity.
  - destruct (String.eqb k' k) eqn:Ek; simpl.
    + apply String.eqb_eq in Ek. subst k'.
      destruct (String.eqb k c); reflexivity.
    + destruct (String.eqb k' c) eqn:Ec.
      * apply String.eqb_eq in Ec. subst c.
        rewrite String.eqb_sym, Ek. reflexivity.
      * exact IH.
Qed.

Lemma dict_lookup_None {V : Type} (d : pydict V) (k : string) :
  dict_lookup d k = None <-> ~ In k (dict_keys d).
Proof.
  induction d as [|[k' v'] d IH]; simpl.
  - tauto.
  - destruct (String.eqb k' k) eqn:Ek.
    + apply String.eqb_eq in Ek. split; [discriminate | tauto].
    + apply String.eqb_neq in Ek. rewrite IH. tauto.
Qed.

Lemma dict_keys_setitem {V : Type} (d : pydict V) (k : string) (v : V) :
  dict_keys (dict_setitem d k v) =
  if dict_contains d k then dict_keys d else (dict_keys d ++ [k])%list.
Proof.
  unfold dict_contains, dict_keys.
  induction d as [|[k' v'] d IH]; simpl; [reflexivity|].
  destruct (String.eqb k' k) eqn:Ek; simpl; [reflexivity|].
  rewrite IH. destruct (dict_lookup d k); reflexivity.
Qed.

Lemma dict_setitem_NoDup {V : Type} (d : pydict V) (k : string) (v : V) :
  NoDup (dict_keys d) -> NoDup (dict_keys (dict_setitem d k v)).
Proof.
  intros Hd. rewrite dict_keys_setitem. unfold dict_contains.
  destruct (dict_lookup d k) eqn:E; [exact Hd|].
  apply dict_lookup_None in E.
  apply NoDup_app; [exact Hd | repeat constructor; simpl; tauto |].
  intros x Hx [<-|[]]. exact (E Hx).
Qed.

Section Properties.

Context {num : Type} {NUM : PyNum num} {LIB : PyLib}.

Implicit Types (w : @World num) (t : @Transaction num)
  (month : option string) (c : string).

(** ** Category spending *)

Lemma strptime_ok t :
  date_ok t -> exists d, strptime_Ymd (date t) = Some d.
Proof.
  unfold date_ok. destruct (strptime_Ymd (date t)) as [d|]; [eauto | tauto].
Qed.

(** The month test of the loops agrees with [in_range] on a date that
    parses. *)
Lemma in_range_parsed month t (d : datetime) :
  strptime_Ymd (date t) = Some d ->
  in_range month t = month_matches month d.
Proof.
  intros Hd. unfold in_range, month_matches.
  destruct month as [m|]; [|reflexivity].
  rewrite Hd. apply String.eqb_sym.
Qed.

(** One turn of the loop of [get_category_spending] on a transaction that
    is no expense or carries a calendar day. *)
Lemma category_spending_body_lookup month (acc : pydict num) t :
  (type t = EXPENSE -> date_ok t) ->
  NoDup (dict_keys acc) ->
  exists acc',
    category_spending_body month acc t = Return acc' /\
    NoDup (dict_keys acc') /\
    forall c, dict_lookup acc' c =
      if expense_of month c t
      then Some (add (dict_get acc c (lit 0)) (amount t))
      else dict_lookup acc c.
Proof.
  intros Ht Hacc. unfold category_spending_body, expense_of, is_kind.
  destruct (type t) eqn:Ek; simpl; [exists acc; auto|].
  destruct (strptime_ok t (Ht eq_refl)) as [d Hd].
  rewrite (in_range_parsed month t d Hd). unfold strptime. rewrite Hd. simpl.
  destruct (month_matches month d); simpl; [|exists acc; auto].
  eexists. split; [reflexivity|]. split.
  - now apply dict_setitem_NoDup.
  - intros c. rewrite dict_lookup_setitem.
    destruct (String.eqb (category t) c) eqn:Ec; [|reflexivity].
    apply String.eqb_eq in Ec. subst c. reflexivity.
Qed.

(** The loop of [get_category_spending], from any dictionary [acc] reached so
    far: the date of every expense parses, so the loop ends normally; a key
    present in [acc] keeps accumulating, a new key appears exactly when some
    expense of its category is in range. *)
Lemma category_spending_loop_expenses month (l : list (@Transaction num)) :
  Forall (fun t => type t = EXPENSE -> date_ok t) l ->
  forall acc : pydict num,
    NoDup (dict_keys acc) ->
    exists spending,
      for_each (category_spending_body month) l acc = Return spending /\
      NoDup (dict_keys spending) /\
      forall c,
        dict_lookup spending c =
        match dict_lookup acc c with
        | Some v => Some (sum_from v (filter (expense_of month c) l))
        | None =>
            if existsb (expense_of month c) l
            then Some (sum_amounts (filter (expense_of month c) l))
            else None
        end.
Proof.
  induction 1 as [|t l Ht Hl IH]; intros acc Hacc.
  - exists acc. simpl. repeat split; [assumption|].
    intros c. destruct (dict_lookup acc c); reflexivity.
  - destruct (category_spending_body_lookup month acc t Ht Hacc)
      as (acc' & Hb & Hnd & Hlk).
    destruct (IH acc' Hnd) as (sp & Hrun & Hsp & Hval).
    exists sp. simpl. rewrite Hb. repeat split; [assumption..|].
    intros c. rewrite Hval, Hlk. unfold sum_amounts, sum_from, dict_get.
    destruct (expense_of month c t) eqn:E; simpl.
    + destruct (dict_lookup acc c); reflexivity.
    + reflexivity.
Qed.

Lemma category_spending_loop month (l : list (@Transaction num)) :
  Forall date_ok l ->
  forall acc : pydict num,
    NoDup (dict_keys acc) ->
    exists spending,
      for_each (category_spending_body month) l acc = Return spending /\
      NoDup (dict_keys spending) /\
      forall c,
        dict_lookup spending c =
        match dict_lookup acc c with
        | Some v => Some (sum_from v (filter (expense_of month c) l))
        | None =>
            if existsb (expense_of month c) l
            then Some (sum_amounts (filter (expense_of month c) l))
            else None
        end.
Proof.
  intros Hl. apply category_spending_loop_expenses.
  eapply Forall_impl; [|exact Hl]. intros t Ht _. exact Ht.
Qed.

(** C1. For every ledger in which the date of each expense is a calendar
    day (outside of which the call raises) and every optional month,
    [get_category_spending] returns a dictionary whose keys are exactly the
    categories with at least one EXPENSE transaction in range (no key is
    repeated, INCOME transactions never contribute, a category without
    expense in range is absent), and the value at a key is the sum of the
    amounts of the EXPENSE transactions of that category in range; in range
    means any date when the month is omitted, and otherwise a date that
    falls in the given year-month. *)
Theorem get_category_spending_spec w month :
  expense_dates_ok w ->
  exists spending,
    fst (get_category_spending month w) = Return spending /\
    NoDup (dict_keys spending) /\
    (forall c,
       In c (dict_keys spending) <->
       exists t, In t (transactions (self w)) /\ type t = EXPENSE /\
                 in_range month t = true /\ category t = c) /\
    (forall c,
       dict_lookup spending c =
       if existsb (expense_of month c) (transactions (self w))
       then Some (sum_amounts
                    (filter (expense_of month c) (transactions (self w))))
       else None).
Proof.
  intros Hw.
  destruct (category_spending_loop_expenses month _ Hw [] (NoDup_nil _))
    as (sp & Hrun & Hnd & Hval).
  exists sp. unfold get_category_spending, bind, get_transactions, lift.
  simpl. split; [exact Hrun|]. split; [exact Hnd|]. split; [|exact Hval].
  intros c. split.
  - intros Hin.
    destruct (existsb (expense_of month c) (transactions (self w))) eqn:E.
    + apply existsb_exists in E. destruct E as (t & Ht & Hp).
      unfold expense_of, is_kind in Hp.
      apply andb_prop in Hp. destruct Hp as [Hp Hc].
      apply andb_prop in Hp. destruct Hp as [Hk Hr].
      exists t. split; [exact Ht|]. split.
      * destruct (type t); [discriminate | reflexivity].
      * split; [exact Hr | now apply String.eqb_eq].
    + exfalso. specialize (Hval c). simpl in Hval. rewrite E in Hval.
      apply dict_lookup_None in Hval. exact (Hval Hin).
  - intros (t & Ht & Hk & Hr & Hc).
    destruct (in_dec string_dec c (dict_keys sp)) as [|Hn]; [assumption|].
    exfalso. apply dict_lookup_None in Hn.
    rewrite Hval in Hn. simpl in Hn.
    assert (E : existsb (expense_of month c) (transactions (self w)) = true).
    { apply existsb_exists. exists t. split; [assumption|].
      unfold expense_of, is_kind. rewrite Hk, Hr. simpl.
      now apply String.eqb_eq. }
    rewrite E in Hn. discriminate.
Qed.

Lemma get_category_spending_frame w month :
  snd (get_category_spending month w) = w.
Proof. reflexivity. Qed.

Lemma get_category_spending_returns w month :
  dates_ok w ->
  exists spending, get_category_spending month w = (Return spending, w).
Proof.
  intros Hw.
  destruct (category_spending_loop month _ Hw [] (NoDup_nil _))
    as (sp & Hrun & _).
  exists sp. unfold get_category_spending, bind, get_transactions, lift.
  simpl. now rewrite Hrun.
Qed.

(** ** Budget alerts *)

(** The loop of [check_budget_alerts] appends an alert for exactly the
    entries whose spending is above the limit. *)
Lemma budget_alerts_loop (spending limits : pydict num) :
  forall (acc : list (@Alert num)) (a : @Alert num),
    In a (fold_left (budget_alerts_body spending) limits acc) <->
    In a acc \/
    exists c limit,
      In (c, limit) limits /\
      gt (dict_get spending c (lit 0)) limit = true /\
      a = mkAlert c limit (dict_get spending c (lit 0))
            (sub (dict_get spending c (lit 0)) limit).
Proof.
  induction limits as [|[c0 l0] limits IH]; intros acc a; simpl.
  - split; [auto | intros [H|(c & l & [] & _)]; exact H].
  - rewrite IH. destruct (gt (dict_get spending c0 (lit 0)) l0) eqn:G.
    + rewrite in_app_iff. simpl. split.
      * intros [[H|[H|[]]]|(c & l & H & Hg & Ha)]; [auto| |].
        -- right. exists c0, l0. auto.
        -- right. exists c, l. auto.
      * intros [H|(c & l & [H|H] & Hg & Ha)]; [auto| |].
        -- injection H as -> ->. left. right. left. now symmetry.
        -- right. exists c, l. auto.
    + split.
      * intros [H|(c & l & H & Hg & Ha)]; [auto|].
        right. exists c, l. auto.
      * intros [H|(c & l & [H|H] & Hg & Ha)]; [auto| |].
        -- injection H as -> ->. rewrite G in Hg. discriminate.
        -- right. exists c, l. auto.
Qed.

(** C2. For every ledger whose dates are calendar days and every optional
    month, [check_budget_alerts] returns a list that holds an alert record
    [{category, limit, spent, exceeded_by = spent - limit}] if and only if
    the category has a configured limit and
    [spent = get_category_spending(month).get(category, 0)] is strictly
    above it; no alert has [spent] equal to its limit, and every alert is
    for a category with a configured limit. *)
Theorem check_budget_alerts_spec {LAWS : PyNumLaws num} w month :
  dates_ok w ->
  exists spending alerts,
    fst (get_category_spending month w) = Return spending /\
    fst (check_budget_alerts month w) = Return alerts /\
    (forall a,
       In a alerts <->
       exists c limit,
         In (c, limit) (budget_limits (self w)) /\
         gt (dict_get spending c (lit 0)) limit = true /\
         a = mkAlert c limit (dict_get spending c (lit 0))
               (sub (dict_get spending c (lit 0)) limit)) /\
    (forall a, In a alerts ->
       gt (alert_spent a) (alert_limit a) = true /\
       alert_spent a <> alert_limit a) /\
    (forall a, In a alerts ->
       In (alert_category a) (dict_keys (budget_limits (self w)))).
Proof.
  intros Hw.
  destruct (get_category_spending_returns w month Hw) as (sp & Hsp).
  exists sp.
  exists (fold_left (budget_alerts_body sp) (budget_limits (self w)) []).
  assert (Hrun :
    fst (check_budget_alerts month w) =
    Return (fold_left (budget_alerts_body sp) (budget_limits (self w)) [])).
  { unfold check_budget_alerts, bind. rewrite Hsp. reflexivity. }
  rewrite Hsp. simpl.
  assert (Hiff : forall a,
    In a (fold_left (budget_alerts_body sp) (budget_limits (self w)) []) <->
    exists c limit,
      In (c, limit) (budget_limits (self w)) /\
      gt (dict_get sp c (lit 0)) limit = true /\
      a = mkAlert c limit (dict_get sp c (lit 0))
            (sub (dict_get sp c (lit 0)) limit)).
  { intros a. rewrite budget_alerts_loop. simpl. tauto. }
  split; [reflexivity|]. split; [exact Hrun|]. split; [exact Hiff|]. split.
  - intros a Ha. apply Hiff in Ha. destruct Ha as (c & l & _ & Hg & ->).
    simpl. split; [exact Hg|].
    intros Heq. rewrite Heq, gt_irrefl in Hg. discriminate.
  - intros a Ha. apply Hiff in Ha. destruct Ha as (c & l & Hin & _ & ->).
    simpl. unfold dict_keys. apply in_map_iff. exists (c, l). auto.
Qed.

(** ** Profit and loss *)

Lemma profit_loss_loop month (l : list (@Transaction num)) :
  Forall date_ok l ->
  forall i e : num,
    for_each (profit_loss_body month) l (i, e) =
    Return (sum_from i (filter (kind_in_range month INCOME) l),
            sum_from e (filter (kind_in_range month EXPENSE) l)).
Proof.
  induction 1 as [|t l Ht Hl IH]; intros i e; [reflexivity|].
  destruct (strptime_ok t Ht) as [d Hd].
  simpl. unfold kind_in_range, is_kind.
  rewrite (in_range_parsed month t d Hd).
  unfold profit_loss_body at 1, strptime. rewrite Hd. simpl.
  destruct (month_matches month d), (type t); simpl; apply IH.
Qed.

(** The record [calculate_profit_loss] builds, in terms of the two sums. *)
Lemma calculate_profit_loss_run w month :
  dates_ok w ->
  fst (calculate_profit_loss month w) =
  Return
    (let i := sum_amounts (filter (kind_in_range month INCOME)
                             (transactions (self w))) in
     let e := sum_amounts (filter (kind_in_range month EXPENSE)
                             (transactions (self w))) in
     mkProfitLoss i e (sub i e)
       (if gt i (lit 0) then mul (truediv (sub i e) i) (lit 100) else lit 0)
       (gt (sub i e) (lit 0))).
Proof.
  intros Hw.
  unfold calculate_profit_loss, bind, get_transactions, lift. simpl.
  rewrite (profit_loss_loop month _ Hw). reflexivity.
Qed.

(** What [calculate_profit_loss] returns on amounts of any sign: the margin
    follows the guard [total_income > 0]. *)
Lemma calculate_profit_loss_by_guard {LAWS : PyNumLaws num} w month :
  dates_ok w ->
  exists r,
    fst (calculate_profit_loss month w) = Return r /\
    total_income r =
      sum_amounts (filter (kind_in_range month INCOME) (transactions (self w))) /\
    total_expenses r =
      sum_amounts (filter (kind_in_range month EXPENSE) (transactions (self w))) /\
    net_profit r = sub (total_income r) (total_expenses r) /\
    profit_margin r =
      (if gt (total_income r) (lit 0)
       then mul (truediv (net_profit r) (total_income r)) (lit 100)
       else lit 0) /\
    is_profitable r = gt (net_profit r) (lit 0) /\
    (gt (total_income r) (lit 0) = false ->
     gt (total_expenses r) (lit 0) = true ->
     profit_margin r = lit 0 /\ is_profitable r = false).
Proof.
  intros Hw. eexists. split; [exact (calculate_profit_loss_run w month Hw)|].
  simpl. split; [reflexivity|]. split; [reflexivity|].
  split; [reflexivity|]. split; [reflexivity|]. split; [reflexivity|].
  intros Hi He. rewrite Hi. split; [reflexivity|].
  now apply gt_sub_nonpos.
Qed.

(** A sum of amounts above zero is the literal [0] it starts from, when
    there is nothing to add, or is above zero. *)
Lemma sum_from_positive {POS : PyNumPositive num}
    (l : list (@Transaction num)) :
  Forall (fun t => gt (amount t) (lit 0) = true) l ->
  forall start : num,
    start = lit 0 \/ gt start (lit 0) = true ->
    sum_from start l = start \/ gt (sum_from start l) (lit 0) = true.
Proof.
  unfold sum_from.
  induction 1 as [|t l Ht Hl IH]; intros start Hstart; simpl; [auto|].
  right.
  assert (Hnext : gt (add start (amount t)) (lit 0) = true).
  { destruct Hstart as [->|Hs];
      [now apply add_zero_pos | now apply add_pos_pos]. }
  destruct (IH (add start (amount t)) (or_intror Hnext)) as [->|H]; assumption.
Qed.

Lemma sum_amounts_positive {POS : PyNumPositive num}
    (p : @Transaction num -> bool) (l : list (@Transaction num)) :
  Forall (fun t => gt (amount t) (lit 0) = true) l ->
  sum_amounts (filter p l) = lit 0 \/
  gt (sum_amounts (filter p l)) (lit 0) = true.
Proof.
  intros Hl. unfold sum_amounts. apply sum_from_positive; [|auto].
  rewrite Forall_forall in *. intros t Ht.
  apply filter_In in Ht. apply Hl. tauto.
Qed.

Lemma is_zero_false_positive {LAWS : PyNumLaws num} (x : num) :
  x = lit 0 \/ gt x (lit 0) = true ->
  is_zero x = false -> gt x (lit 0) = true.
Proof.
  unfold is_zero. intros [->|H] Hz; [|exact H].
  rewrite gt_irrefl in Hz. discriminate.
Qed.

Lemma is_zero_true_not_above (x : num) :
  is_zero x = true -> gt x (lit 0) = false.
Proof.
  unfold is_zero. intros H. apply andb_prop in H. destruct H as [H _].
  now apply negb_true_iff in H.
Qed.

(** C3. For every ledger whose dates are calendar days and whose amounts
    are above zero, as the data model has them, and every optional month,
    [calculate_profit_loss] returns the record with [total_income] the sum
    of the INCOME amounts in range, [total_expenses] the sum of the EXPENSE
    amounts in range, [net_profit] their difference,
    [profit_margin = net_profit / total_income * 100] when [total_income]
    is not zero and [0] when it is zero, and
    [is_profitable = (net_profit > 0)]; with zero income and expenses that
    are not zero it yields margin [0] and not profitable. *)
Theorem calculate_profit_loss_spec {LAWS : PyNumLaws num}
    {POS : PyNumPositive num} w month :
  dates_ok w ->
  amounts_positive w ->
  exists r,
    fst (calculate_profit_loss month w) = Return r /\
    total_income r =
      sum_amounts (filter (kind_in_range month INCOME) (transactions (self w))) /\
    total_expenses r =
      sum_amounts (filter (kind_in_range month EXPENSE) (transactions (self w))) /\
    net_profit r = sub (total_income r) (total_expenses r) /\
    (is_zero (total_income r) = false ->
     profit_margin r =
       mul (truediv (net_profit r) (total_income r)) (lit 100)) /\
    (is_zero (total_income r) = true -> profit_margin r = lit 0) /\
    is_profitable r = gt (net_profit r) (lit 0) /\
    (is_zero (total_income r) = true ->
     is_zero (total_expenses r) = false ->
     profit_margin r = lit 0 /\ is_profitable r = false).
Proof.
  intros Hw Hpos. eexists.
  split; [exact (calculate_profit_loss_run w month Hw)|]. cbv zeta.
  pose proof (sum_amounts_positive (kind_in_range month INCOME) _ Hpos) as Hi.
  pose proof (sum_amounts_positive (kind_in_range month EXPENSE) _ Hpos) as He.
  set (i := sum_amounts (filter (kind_in_range month INCOME) _)) in *.
  set (e := sum_amounts (filter (kind_in_range month EXPENSE) _)) in *.
  simpl. split; [reflexivity|]. split; [reflexivity|]. split; [reflexivity|].
  split.
  { intros Hz. now rewrite (is_zero_false_positive i Hi Hz). }
  split.
  { intros Hz. now rewrite (is_zero_true_not_above i Hz). }
  split; [reflexivity|].
  intros Hzi Hze. rewrite (is_zero_true_not_above i Hzi).
  split; [reflexivity|].
  apply gt_sub_nonpos; [now apply is_zero_true_not_above|].
  now apply is_zero_false_positive.
Qed.

(** ** Identifiers *)

Lemma fold_max_spec (l : list Z) :
  forall i : Z,
    i <= fold_left Z.max l i /\
    (forall x, In x l -> x <= fold_left Z.max l i) /\
    (fold_left Z.max l i = i \/ In (fold_left Z.max l i) l).
Proof.
  induction l as [|y l IH]; intros i; simpl.
  - repeat split; [lia | tauto | auto].
  - destruct (IH (Z.max i y)) as (H1 & H2 & H3). repeat split.
    + lia.
    + intros x [<-|Hx]; [lia | auto].
    + destruct H3 as [H3|H3]; [|auto].
      rewrite H3. destruct (Z.max_spec i y) as [[_ ->]|[_ ->]]; auto.
Qed.

Lemma get_next_id_spec w :
  exists n,
    get_next_id w = (Return n, w) /\
    (transactions (self w) = [] -> n = 0 + 1) /\
    (forall u, In u (transactions (self w)) -> id u < n) /\
    (transactions (self w) <> [] ->
     exists u, In u (transactions (self w)) /\ n = id u + 1).
Proof.
  unfold get_next_id, bind, get_transactions. simpl.
  destruct (transactions (self w)) as [|t0 l]; simpl.
  - exists 1. repeat split; [tauto | congruence].
  - destruct (fold_max_spec (map id l) (id t0)) as (H1 & H2 & H3).
    eexists. split; [reflexivity|]. repeat split.
    + discriminate.
    + intros u [<-|Hu]; [lia|].
      specialize (H2 (id u) (in_map id l u Hu)). lia.
    + intros _. destruct H3 as [H3|H3].
      * exists t0. rewrite H3. auto.
      * apply in_map_iff in H3. destruct H3 as (u & Hu & Hin).
        exists u. rewrite Hu. auto.
Qed.

(** What one call of [add_transaction] does to the world. *)
Lemma add_transaction_run w (today : string) (k : TransactionType)
    (a : num) (cat desc : string) (tg : option (list string)) :
  exists n,
    get_next_id w = (Return n, w) /\
    let t := mkTransaction n k a cat desc today
               (match tg with
                | None => []
                | Some l => l
                end) in
    let txs := (transactions (self w) ++ [t])%list in
    add_transaction today k a cat desc tg w =
    (Return t,
     mkWorld (mkExpenseTracker txs (budget_limits (self w)))
       (Holds (mkDocument (Some (map save_item txs))
                 (Some (budget_limits (self w)))))).
Proof.
  destruct (get_next_id_spec w) as (n & Hn & _).
  exists n. split; [exact Hn|].
  unfold add_transaction, bind. rewrite Hn. reflexivity.
Qed.

Lemma add_all_ids (calls : list (@AddCall num)) :
  forall w,
    List.length (fst (add_all calls w)) = List.length calls /\
    Forall (fun t => forall u, In u (transactions (self w)) -> id u < id t)
      (fst (add_all calls w)) /\
    StronglySorted Z.lt (map id (fst (add_all calls w))).
Proof.
  induction calls as [|c calls IH]; intros w; simpl.
  - repeat split; constructor.
  - unfold run_add.
    destruct (add_transaction_run w (call_today c) (call_type c)
                (call_amount c) (call_category c) (call_description c)
                (call_tags c)) as (n & Hn & Hrun).
    cbv zeta in Hrun. rewrite Hrun. clear Hrun.
    destruct (get_next_id_spec w) as (n' & Hn' & _ & Hlt & _).
    rewrite Hn in Hn'. injection Hn' as <-.
    match goal with |- context [add_all calls ?w1] =>
      destruct (IH w1) as (Hlen & Hall & Hsorted);
      destruct (add_all calls w1) as [ts w2]
    end.
    simpl in *. repeat split.
    + now rewrite Hlen.
    + constructor; [exact Hlt|].
      eapply Forall_impl; [|exact Hall].
      intros t Ht u Hu. apply Ht. apply in_or_app. auto.
    + constructor; [exact Hsorted|].
      apply Forall_forall. intros i Hi.
      apply in_map_iff in Hi. destruct Hi as (t & <- & Hin).
      rewrite Forall_forall in Hall.
      specialize (Hall t Hin).
      match type of Hall with
      | forall u, In u (_ ++ [?x]) -> _ => apply (Hall x)
      end.
      apply in_or_app. right. left. reflexivity.
Qed.

Lemma StronglySorted_lt_NoDup (l : list Z) :
  StronglySorted Z.lt l -> NoDup l.
Proof.
  induction 1 as [|x l Hs IH Hx]; constructor; [|exact IH].
  intros Hin. rewrite Forall_forall in Hx. specialize (Hx x Hin). lia.
Qed.

(** C4. [add_transaction] returns a record whose id is the largest existing
    id plus one (0 + 1 on an empty ledger) and appends it at the end of the
    list; along any sequence of [add_transaction] calls every call returns
    and the returned ids are strictly increasing, hence pairwise distinct. *)
Theorem add_transaction_ids :
  (forall w (today : string) (k : TransactionType) (a : num)
          (cat desc : string) (tg : option (list string)),
     exists t,
       fst (add_transaction today k a cat desc tg w) = Return t /\
       (transactions (self w) = [] -> id t = 0 + 1) /\
       (forall u, In u (transactions (self w)) -> id u < id t) /\
       (transactions (self w) <> [] ->
        exists u, In u (transactions (self w)) /\ id t = id u + 1) /\
       transactions (self (snd (add_transaction today k a cat desc tg w))) =
       (transactions (self w) ++ [t])%list) /\
  (forall w (calls : list (@AddCall num)),
     List.length (fst (add_all calls w)) = List.length calls /\
     StronglySorted Z.lt (map id (fst (add_all calls w))) /\
     NoDup (map id (fst (add_all calls w)))).
Proof.
  split.
  - intros w today k a cat desc tg.
    destruct (add_transaction_run w today k a cat desc tg) as (n & Hn & Hrun).
    cbv zeta in Hrun. rewrite Hrun. simpl.
    destruct (get_next_id_spec w) as (n' & Hn' & He & Hlt & Hmax).
    rewrite Hn in Hn'. injection Hn' as <-.
    eexists. split; [reflexivity|]. simpl. auto.
  - intros w calls. destruct (add_all_ids calls w) as (Hlen & _ & Hs).
    repeat split; [assumption..|]. now apply StronglySorted_lt_NoDup.
Qed.

(** ** Deletion *)

Lemma delete_transaction_run w (tid : Z) :
  let txs := filter (fun t => negb (id t =? tid)) (transactions (self w)) in
  delete_transaction tid w =
  (Return tt,
   mkWorld (mkExpenseTracker txs (budget_limits (self w)))
     (Holds (mkDocument (Some (map save_item txs))
               (Some (budget_limits (self w)))))).
Proof. reflexivity. Qed.

Lemma filter_id {A : Type} (p : A -> bool) (l : list A) :
  (forall x, In x l -> p x = true) -> filter p l = l.
Proof.
  induction l as [|x l IH]; simpl; intros H; [reflexivity|].
  rewrite (H x (or_introl eq_refl)). f_equal. apply IH. auto.
Qed.

Lemma filter_twice {A : Type} (p : A -> bool) (l : list A) :
  filter p (filter p l) = filter p l.
Proof.
  apply filter_id. intros x Hx. apply filter_In in Hx. tauto.
Qed.

(** C5. [delete_transaction] returns normally, keeps exactly the
    transactions whose id differs from the given one, in their original
    order, and leaves the budget limits alone; when no transaction has that
    id the list is unchanged; and deleting the same id a second time
    changes nothing more. *)
Theorem delete_transaction_spec w (tid : Z) :
  let w1 := snd (delete_transaction tid w) in
  fst (delete_transaction tid w) = Return tt /\
  transactions (self w1) =
    filter (fun t => negb (id t =? tid)) (transactions (self w)) /\
  (forall t, In t (transactions (self w1)) <->
             In t (transactions (self w)) /\ id t <> tid) /\
  budget_limits (self w1) = budget_limits (self w) /\
  ((forall t, In t (transactions (self w)) -> id t <> tid) ->
   transactions (self w1) = transactions (self w)) /\
  fst (delete_transaction tid w1) = Return tt /\
  snd (delete_transaction tid w1) = w1.
Proof.
  cbv zeta. rewrite delete_transaction_run. cbv zeta. simpl.
  split; [reflexivity|]. split; [reflexivity|]. split.
  { intros t. rewrite filter_In, negb_true_iff, Z.eqb_neq. tauto. }
  split; [reflexivity|]. split.
  { intros Hno. apply filter_id. intros t Ht.
    now apply negb_true_iff, Z.eqb_neq, Hno. }
  rewrite filter_twice. split; reflexivity.
Qed.

(** ** Search *)

Lemma search_loop (m : SearchMode) (query : string)
    (l : list (@Transaction num)) :
  forall acc,
    fold_left (search_body query (mode_name m)) l acc =
    (acc ++ filter (mode_selects m query) l)%list.
Proof.
  induction l as [|t l IH]; intros acc; simpl.
  - now rewrite app_nil_r.
  - rewrite IH. unfold search_body at 1.
    destruct m; simpl;
      destruct (description_matches query t), (tags_match query t); simpl;
      rewrite <- ?app_assoc; reflexivity.
Qed.

Lemma prefix_spec (a b : string) :
  String.prefix a b = true <-> exists post, b = (a ++ post)%string.
Proof.
  revert b. induction a as [|x a IH]; intros b; simpl.
  - destruct b; split; eauto.
  - destruct b as [|y b]; simpl.
    + split; [discriminate | intros [post H]; discriminate].
    + destruct (ascii_dec x y) as [->|Hne].
      * rewrite IH. split; intros [post H]; exists post; congruence.
      * split; [discriminate | intros [post H]; congruence].
Qed.

Lemma str_in_spec (needle hay : string) :
  str_in needle hay = true <->
  exists pre post, hay = (pre ++ needle ++ post)%string.
Proof.
  induction hay as [|y hay IH].
  - change (str_in needle "") with (String.prefix needle "" || false).
    rewrite orb_false_r, prefix_spec. split.
    + intros [post H]. exists EmptyString, post. exact H.
    + intros (pre & post & H). destruct pre; [eauto | discriminate].
  - change (str_in needle (String y hay))
      with (String.prefix needle (String y hay) || str_in needle hay).
    rewrite orb_true_iff, IH, prefix_spec. split.
    + intros [[post H]|(pre & post & H)].
      * exists EmptyString, post. exact H.
      * exists (String y pre), post. simpl. now rewrite H.
    + intros (pre & post & H). destruct pre as [|x pre]; simpl in H.
      * left. eauto.
      * right. injection H as _ H. eauto.
Qed.

(** The predicate of a mode selects what the specification asks for. *)
Lemma mode_selects_selected (m : SearchMode) (query : string) t :
  mode_selects m query t = true <-> selected m query t.
Proof.
  assert (Hd : description_matches query t = true <->
               contains_ignoring_case query (description t)).
  { unfold description_matches, contains_ignoring_case. apply str_in_spec. }
  assert (Ht : tags_match query t = true <->
               exists tag, In tag (tags t) /\ contains_ignoring_case query tag).
  { unfold tags_match, contains_ignoring_case. rewrite existsb_exists.
    split; intros (tag & Hin & H); exists tag; (split; [exact Hin|]);
      now apply str_in_spec. }
  destruct m; simpl; rewrite ?orb_true_iff; tauto.
Qed.

(** C6. For each of the modes all, description and tags,
    [search_transactions] returns the ledger filtered by one test, so each
    transaction that passes appears once per occurrence and in ledger
    order; the test passes exactly the transactions the mode is to select:
    those whose description contains the query, case being ignored, those
    with some tag that contains it, or those with either. *)
Theorem search_transactions_spec w (query : string) (m : SearchMode) :
  exists select : @Transaction num -> bool,
    fst (search_transactions query (mode_name m) w) =
      Return (filter select (transactions (self w))) /\
    forall t, select t = true <-> selected m query t.
Proof.
  exists (mode_selects m query). split.
  - unfold search_transactions, bind, get_transactions, ret. simpl.
    now rewrite search_loop.
  - intros t. apply mode_selects_selected.
Qed.

Lemma search_loop_other (query mode : string) (l : list (@Transaction num)) :
  str_mem mode ["all"; "description"]%string = false ->
  str_mem mode ["all"; "tags"]%string = false ->
  forall acc, fold_left (search_body query mode) l acc = acc.
Proof.
  intros H1 H2. induction l as [|t l IH]; intros acc; simpl; [reflexivity|].
  rewrite IH. unfold search_body. rewrite H1, H2. reflexivity.
Qed.

(** C10. With a mode other than all, description and tags,
    [search_transactions] returns the empty list whatever the ledger and
    the query. *)
Theorem search_transactions_unknown_mode w (query mode : string) :
  mode <> "all"%string -> mode <> "description"%string ->
  mode <> "tags"%string ->
  fst (search_transactions query mode w) = Return [].
Proof.
  intros Ha Hd Ht.
  apply String.eqb_neq in Ha, Hd, Ht.
  unfold search_transactions, bind, get_transactions, ret. simpl.
  rewrite search_loop_other; [reflexivity| |];
    unfold str_mem; simpl; rewrite Ha, ?Hd, ?Ht; reflexivity.
Qed.

(** ** Persistence *)

Lemma load_save_item t : load_item (save_item t) = Return t.
Proof. destruct t as [i k a c d dt tg]. destruct k; reflexivity. Qed.

Lemma load_save_items (l : list (@Transaction num)) :
  comprehension load_item (map save_item l) = Return l.
Proof.
  induction l as [|t l IH]; simpl; [reflexivity|].
  rewrite load_save_item, IH. reflexivity.
Qed.

Lemma load_saved w (other : @ExpenseTracker num) :
  load_data (mkWorld other (disk (snd (save_data w)))) =
  (Return tt, mkWorld (self w) (disk (snd (save_data w)))).
Proof.
  unfold save_data, load_data, try_except_FileNotFound, bind, read_document,
    get_transactions, get_budget_limits, write_document, lift. simpl.
  rewrite load_save_items. simpl. destruct w as [[txs limits] file].
  reflexivity.
Qed.

(** C7. [save_data] followed by [load_data], into an object in any state
    and in particular into a newly constructed one, returns normally and
    reconstructs the saved state: the same transaction list, field by field
    and in the same order, and the same budget limits. *)
Theorem save_load_roundtrip w (other : @ExpenseTracker num) :
  let file := disk (snd (save_data w)) in
  fst (save_data w) = Return tt /\
  self (snd (save_data w)) = self w /\
  load_data (mkWorld other file) = (Return tt, mkWorld (self w) file) /\
  ExpenseTracker_init file = (Return tt, mkWorld (self w) file).
Proof.
  cbv zeta. split; [reflexivity|]. split; [reflexivity|].
  split; [apply load_saved|]. unfold ExpenseTracker_init. apply load_saved.
Qed.

Lemma load_item_not_FileNotFound (item : @TransactionItem num) :
  load_item item <> Raise FileNotFoundError.
Proof.
  unfold load_item, getitem, TransactionType_of_value, obind.
  destruct (item_id item); [|discriminate].
  destruct (item_type item) as [v|]; [|discriminate].
  destruct (String.eqb v "income");
    [|destruct (String.eqb v "expense"); [|discriminate]];
    (destruct (item_amount item); [|discriminate]);
    (destruct (item_category item); [|discriminate]);
    (destruct (item_description item); [|discriminate]);
    (destruct (item_date item); discriminate).
Qed.

Lemma comprehension_not_FileNotFound (items : list (@TransactionItem num)) :
  comprehension load_item items <> Raise FileNotFoundError.
Proof.
  induction items as [|item items IH]; simpl; [discriminate|].
  pose proof (load_item_not_FileNotFound item) as Hi.
  destruct (load_item item) as [t|e]; simpl; [|congruence].
  destruct (comprehension load_item items) as [ts|e]; simpl;
    [discriminate | congruence].
Qed.

Lemma load_item_unknown_kind (item : @TransactionItem num) (kind : string) :
  item_type item = Some kind ->
  kind <> "income"%string -> kind <> "expense"%string ->
  exists e, load_item item = Raise e.
Proof.
  intros Hk Hi He. apply String.eqb_neq in Hi, He.
  unfold load_item, getitem, TransactionType_of_value, obind.
  rewrite Hk, Hi, He. destruct (item_id item); eauto.
Qed.

Lemma comprehension_raises (items : list (@TransactionItem num))
    (item : @TransactionItem num) :
  In item items -> (exists e, load_item item = Raise e) ->
  exists e, comprehension load_item items = Raise e.
Proof.
  intros Hin [e He]. induction items as [|x items IH]; [destruct Hin|].
  simpl. destruct Hin as [->|Hin].
  - rewrite He. simpl. eauto.
  - destruct (load_item x); simpl; [|eauto].
    destruct (IH Hin) as [e' ->]. simpl. eauto.
Qed.

(** C8. [load_data] turns a missing file into the empty ledger and returns
    normally; a document without the key [transactions] (or
    [budget_limits]) loads with that collection empty; a file that does not
    parse, or a document with a transaction of unknown kind, makes
    [load_data] raise and leaves the object and the file as they were. *)
Theorem load_data_cases w :
  (disk w = NoFile ->
   load_data w = (Return tt, mkWorld (mkExpenseTracker [] []) NoFile)) /\
  (forall doc, disk w = Holds doc -> doc_transactions doc = None ->
     load_data w =
     (Return tt,
      mkWorld (mkExpenseTracker [] (get_default (doc_budget_limits doc) []))
        (disk w))) /\
  (forall doc items txs,
     disk w = Holds doc -> doc_transactions doc = Some items ->
     doc_budget_limits doc = None ->
     comprehension load_item items = Return txs ->
     load_data w = (Return tt, mkWorld (mkExpenseTracker txs []) (disk w))) /\
  (disk w = Unparseable -> load_data w = (Raise JSONDecodeError, w)) /\
  (forall doc items item kind,
     disk w = Holds doc -> doc_transactions doc = Some items ->
     In item items -> item_type item = Some kind ->
     kind <> "income"%string -> kind <> "expense"%string ->
     exists e, load_data w = (Raise e, w)).
Proof.
  unfold load_data, try_except_FileNotFound, bind, read_document, lift,
    set_transactions, set_budget_limits.
  destruct w as [s d]. simpl.
  split; [|split; [|split; [|split]]].
  - intros ->. reflexivity.
  - intros doc -> ->. reflexivity.
  - intros doc items txs -> -> -> Htxs. simpl. rewrite Htxs. reflexivity.
  - intros ->. reflexivity.
  - intros doc items item kind -> -> Hin Hk Hi He. simpl.
    destruct (comprehension_raises items item Hin
                (load_item_unknown_kind item kind Hk Hi He)) as [e Hr].
    pose proof (comprehension_not_FileNotFound items) as Hnf.
    rewrite Hr in *. exists e. destruct e; congruence.
Qed.

(** ** Queries do not change the ledger *)

(** C9. The queries [get_category_spending], [check_budget_alerts],
    [calculate_profit_loss], [get_monthly_summary] and
    [search_transactions] leave the object and its file exactly as they
    were, whether they return or raise. *)
Theorem queries_frame w month (query mode : string) :
  snd (get_category_spending month w) = w /\
  snd (check_budget_alerts month w) = w /\
  snd (calculate_profit_loss month w) = w /\
  snd (get_monthly_summary w) = w /\
  snd (search_transactions query mode w) = w.
Proof.
  split; [reflexivity|]. split; [|split; [|split; reflexivity]].
  - unfold check_budget_alerts, bind.
    pose proof (get_category_spending_frame w month) as Hf.
    destruct (get_category_spending month w) as [[sp|e] w'];
      simpl in Hf; subst w'; reflexivity.
  - unfold calculate_profit_loss, bind, get_transactions, lift. simpl.
    destruct (for_each (profit_loss_body month) (transactions (self w))
                (lit 0, lit 0)) as [[i e]|e]; reflexivity.
Qed.

(** ** The dates of the ledger *)

(** The commands keep every date a calendar day: [add_transaction] stamps
    the record with the current day, the other two add no record. *)
Lemma commands_keep_dates_ok w :
  dates_ok w ->
  (forall (today : string) (k : TransactionType) (a : num)
          (cat desc : string) (tg : option (list string)),
     strptime_Ymd today <> None ->
     dates_ok (snd (add_transaction today k a cat desc tg w))) /\
  (forall tid : Z, dates_ok (snd (delete_transaction tid w))) /\
  (forall (cat : string) (limit : num),
     dates_ok (snd (set_budget_limit cat limit w))).
Proof.
  unfold dates_ok. intros Hw. split; [|split].
  - intros today k a cat desc tg Hday.
    destruct (add_transaction_run w today k a cat desc tg) as (n & _ & Hrun).
    cbv zeta in Hrun. rewrite Hrun. simpl.
    apply Forall_app. split; [exact Hw|].
    constructor; [exact Hday | constructor].
  - intros tid. rewrite delete_transaction_run. simpl.
    rewrite Forall_forall in *. intros t Ht.
    apply filter_In in Ht. apply Hw. tauto.
  - intros cat limit. exact Hw.
Qed.

End Properties.

(** * The reference instances at work *)

#[export] Instance Q_PyNumLaws : PyNumLaws Q.
Proof.
  split; simpl; unfold Qgt_bool.
  - intros x. apply negb_false_iff, Qle_bool_iff, Qle_refl.
  - intros a b Ha Hb.
    apply negb_false_iff, Qle_bool_iff in Ha.
    apply negb_true_iff in Hb.
    assert (Hb' : ~ (b <= inject_Z 0)%Q).
    { intros H. apply Qle_bool_iff in H. congruence. }
    apply Qnot_le_lt in Hb'.
    apply negb_false_iff, Qle_bool_iff.
    change (inject_Z 0) with 0%Q in *. lra.
Qed.

Lemma demo_dates_ok : dates_ok demo_world.
Proof.
  unfold dates_ok. simpl.
  repeat (constructor; [intros H; vm_compute in H; discriminate|]).
  constructor.
Defined.

Lemma Qgt_bool_true (a b : Q) : Qgt_bool a b = true <-> (b < a)%Q.
Proof.
  unfold Qgt_bool. rewrite negb_true_iff. split.
  - intros H. apply Qnot_le_lt. intros Hle.
    apply Qle_bool_iff in Hle. congruence.
  - intros H. destruct (Qle_bool a b) eqn:E; [|reflexivity].
    apply Qle_bool_iff in E. lra.
Qed.

#[export] Instance Q_PyNumPositive : PyNumPositive Q.
Proof.
  split; simpl; intros; rewrite Qgt_bool_true in *;
    change (inject_Z 0) with 0%Q in *; lra.
Qed.

Lemma demo_expense_dates_ok : expense_dates_ok demo_world.
Proof.
  unfold expense_dates_ok.
  eapply Forall_impl; [|exact demo_dates_ok]. intros t Ht _. exact Ht.
Defined.

Lemma get_category_spending_spec_witness :
  expense_dates_ok demo_world /\
  (exists march,
     fst (get_category_spending (Some "2024-03"%string) demo_world) =
       Return march /\
     dict_lookup march "Food" = Some (225 # 1) /\
     dict_lookup march "Transport" = None /\
     dict_lookup march "Salary" = None) /\
  (exists all_time,
     fst (get_category_spending None demo_world) = Return all_time /\
     dict_lookup all_time "Food" = Some (225 # 1) /\
     dict_lookup all_time "Transport" = Some (50 # 1)).
Proof.
  split; [exact demo_expense_dates_ok|]. split.
  - destruct (get_category_spending_spec demo_world (Some "2024-03"%string)
                demo_expense_dates_ok) as (sp & Hrun & _ & _ & Hval).
    exists sp. split; [exact Hrun|]. rewrite !Hval.
    split; [reflexivity|]. split; reflexivity.
  - destruct (get_category_spending_spec demo_world None
                demo_expense_dates_ok) as (sp & Hrun & _ & _ & Hval).
    exists sp. split; [exact Hrun|]. rewrite !Hval.
    split; reflexivity.
Defined.

Lemma check_budget_alerts_spec_witness :
  dates_ok demo_world /\
  exists alerts,
    fst (check_budget_alerts None demo_world) = Return alerts /\
    forall a, In a alerts -> gt (alert_spent a) (alert_limit a) = true.
Proof.
  split; [exact demo_dates_ok|].
  destruct (check_budget_alerts_spec (LAWS := Q_PyNumLaws) demo_world None
              demo_dates_ok) as (sp & alerts & _ & Hrun & _ & Hgt & _).
  exists alerts. split; [exact Hrun|].
  intros a Ha. exact (proj1 (Hgt a Ha)).
Defined.

Lemma demo_amounts_positive : amounts_positive demo_world.
Proof.
  unfold amounts_positive. simpl. repeat (constructor; [reflexivity|]).
  constructor.
Defined.

Lemma calculate_profit_loss_spec_witness :
  dates_ok demo_world /\ amounts_positive demo_world /\
  dates_ok expenses_only_world /\ amounts_positive expenses_only_world /\
  (exists r,
     fst (calculate_profit_loss None demo_world) = Return r /\
     total_income r = 5500 # 1 /\ total_expenses r = 275 # 1 /\
     profit_margin r =
       mul (truediv (net_profit r) (total_income r)) (lit 100) /\
     (profit_margin r == 95)%Q) /\
  (exists r,
     fst (calculate_profit_loss (Some "2024-03"%string) demo_world) =
       Return r /\
     total_expenses r = 225 # 1) /\
  (exists r,
     fst (calculate_profit_loss None expenses_only_world) = Return r /\
     profit_margin r = lit 0 /\ is_profitable r = false).
Proof.
  assert (Hd : dates_ok expenses_only_world).
  { unfold dates_ok. simpl.
    repeat (constructor; [intros H; vm_compute in H; discriminate|]).
    constructor. }
  assert (Hp : amounts_positive expenses_only_world).
  { unfold amounts_positive. simpl. repeat (constructor; [reflexivity|]).
    constructor. }
  split; [exact demo_dates_ok|]. split; [exact demo_amounts_positive|].
  split; [exact Hd|]. split; [exact Hp|]. split; [|split].
  - destruct (calculate_profit_loss_spec (LAWS := Q_PyNumLaws)
                (POS := Q_PyNumPositive) demo_world None
                demo_dates_ok demo_amounts_positive)
      as (r & Hrun & Hi & He & Hn & Hm & _).
    exists r. split; [exact Hrun|].
    split; [rewrite Hi; reflexivity|]. split; [rewrite He; reflexivity|].
    assert (Hz : is_zero (total_income r) = false)
      by (rewrite Hi; reflexivity).
    split; [exact (Hm Hz)|].
    rewrite (Hm Hz), Hn, Hi, He. reflexivity.
  - destruct (calculate_profit_loss_spec (LAWS := Q_PyNumLaws)
                (POS := Q_PyNumPositive) demo_world (Some "2024-03"%string)
                demo_dates_ok demo_amounts_positive)
      as (r & Hrun & _ & He & _).
    exists r. split; [exact Hrun|]. rewrite He. reflexivity.
  - destruct (calculate_profit_loss_spec (LAWS := Q_PyNumLaws)
                (POS := Q_PyNumPositive) expenses_only_world None Hd Hp)
      as (r & Hrun & Hi & He & _ & _ & _ & _ & Hloss).
    exists r. split; [exact Hrun|]. apply Hloss.
    + rewrite Hi. reflexivity.
    + rewrite He. reflexivity.
Defined.

(** Outside the data model: with amounts below zero the guard
    [total_income > 0] shows.  An income of -10 has a total that is not
    zero and margin 0; an expense of -5 with no income is reported
    profitable. *)
Example profit_loss_on_negative_amounts :
  (exists r,
     fst (calculate_profit_loss None negative_income_world) = Return r /\
     ~ (total_income r == 0)%Q /\
     ~ (profit_margin r == net_profit r / total_income r * 100)%Q) /\
  (exists r,
     fst (calculate_profit_loss None negative_expense_world) = Return r /\
     (total_income r == 0)%Q /\ ~ (total_expenses r == 0)%Q /\
     is_profitable r = true).
Proof.
  split; eexists; (split; [vm_compute; reflexivity|]); simpl.
  - split; intros H; vm_compute in H; discriminate.
  - split; [reflexivity|]. split; [|reflexivity].
    intros H; vm_compute in H; discriminate.
Qed.

Lemma add_transaction_ids_witness :
  transactions (self empty_world) = [] /\
  exists t,
    fst (add_transaction "2024-03-05" EXPENSE (150 # 1) "Food" "Groceries"
           None empty_world) = Return t /\
    id t = 1.
Proof.
  split; [reflexivity|].
  destruct (proj1 (@add_transaction_ids Q) empty_world
              "2024-03-05"%string EXPENSE (150 # 1)%Q "Food"%string
              "Groceries"%string None) as (t & Hrun & Hfirst & _).
  exists t. split; [exact Hrun|]. exact (Hfirst eq_refl).
Defined.

Lemma delete_transaction_spec_witness :
  (forall t, In t (transactions (self demo_world)) -> id t <> 99) /\
  transactions (self (snd (delete_transaction 99 demo_world))) =
  transactions (self demo_world).
Proof.
  assert (Hno : forall t : QTransaction,
             In t (transactions (self demo_world)) -> id t <> 99).
  { simpl. intros t H.
    repeat (destruct H as [<-|H]; [simpl; lia|]). destruct H. }
  split; [exact Hno|].
  destruct (delete_transaction_spec demo_world 99)
    as (_ & _ & _ & _ & Hnoop & _).
  exact (Hnoop Hno).
Defined.

Lemma search_transactions_unknown_mode_witness :
  "amount"%string <> "all"%string /\
  "amount"%string <> "description"%string /\
  "amount"%string <> "tags"%string /\
  fst (search_transactions "gas" "amount" demo_world) = Return [].
Proof.
  assert (H1 : "amount"%string <> "all"%string) by discriminate.
  assert (H2 : "amount"%string <> "description"%string) by discriminate.
  assert (H3 : "amount"%string <> "tags"%string) by discriminate.
  split; [exact H1|]. split; [exact H2|]. split; [exact H3|].
  exact (search_transactions_unknown_mode demo_world "gas" "amount" H1 H2 H3).
Defined.

Lemma load_data_cases_witness :
  let w := mkWorld (self demo_world) (Holds transfer_document) in
  In transfer_item [ save_item (mkTransaction 1 INCOME (500 # 1) "Freelance"
                                  "Web development project" "2024-03-05" []);
                     transfer_item ] /\
  exists e, load_data w = (Raise e, w).
Proof.
  cbv zeta.
  assert (Hin : In transfer_item
            [ save_item (mkTransaction 1 INCOME (500 # 1) "Freelance"
                           "Web development project" "2024-03-05" []);
              transfer_item ]) by (right; left; reflexivity).
  split; [exact Hin|].
  destruct (load_data_cases (mkWorld (self demo_world) (Holds transfer_document)))
    as (_ & _ & _ & _ & Hbad).
  apply (Hbad transfer_document _ transfer_item "transfer"%string
           eq_refl eq_refl Hin eq_refl); discriminate.
Defined.

(** ** The examples of the specification *)

Example demo_category_spending :
  fst (get_category_spending None demo_world) =
  Return [("Food"%string, 225 # 1); ("Transport"%string, 50 # 1)].
Proof. reflexivity. Qed.

Example demo_profit_loss :
  exists r,
    fst (calculate_profit_loss None demo_world) = Return r /\
    total_income r = 5500 # 1 /\ total_expenses r = 275 # 1 /\
    net_profit r = 5225 # 1 /\ (profit_margin r == 95)%Q /\
    is_profitable r = true.
Proof. eexists. split; [reflexivity|]. repeat split. Qed.

Example demo_budget_alert :
  fst (check_budget_alerts None demo_world) =
  Return [mkAlert "Food" (200 # 1) (225 # 1) (25 # 1)].
Proof. reflexivity. Qed.

Example demo_alert_at_limit :
  fst (check_budget_alerts None
         (mkWorld (mkExpenseTracker demo_transactions
                     [("Food"%string, 225 # 1)]) NoFile)) =
  Return [].
Proof. reflexivity. Qed.

Example demo_search_description :
  fst (search_transactions "restaurant" "description" search_world) =
  Return (firstn 1 (transactions (self search_world))).
Proof. reflexivity. Qed.

Example demo_search_all :
  fst (search_transactions "restaurant" "all" search_world) =
  Return (transactions (self search_world)).
Proof. reflexivity. Qed.

Example demo_added_ids :
  map id (fst (add_all demo_calls demo_world)) = [6; 7; 8].
Proof. reflexivity. Qed.

Example demo_load_unknown_kind :
  load_data (mkWorld (self demo_world) (Holds transfer_document)) =
  (Raise ValueError, mkWorld (self demo_world) (Holds transfer_document)).
Proof. reflexivity. Qed.

(** A date that is no calendar day makes the queries that parse dates raise,
    and the ledger stays as it was. *)
Example malformed_date_raises :
  let w : QWorld :=
    mkWorld
      (mkExpenseTracker
         [ mkTransaction 1 EXPENSE (20 # 1) "Food" "Lunch" "2024-02-30" [] ]
         [])
      NoFile in
  get_category_spending None w = (Raise ValueError, w) /\
  check_budget_alerts None w = (Raise ValueError, w) /\
  calculate_profit_loss None w = (Raise ValueError, w).
Proof. repeat split. Qed.

(** * Further properties of the ledger *)

Section FurtherProperties.

Context {num : Type} {NUM : PyNum num} {LIB : PyLib}.

Implicit Types (w : @World num) (t : @Transaction num)
  (month : option string) (c : string).

(** ** Budget limits *)

Lemma set_budget_limit_run w (cat : string) (limit : num) :
  let limits := dict_setitem (budget_limits (self w)) cat limit in
  set_budget_limit cat limit w =
  (Return tt,
   mkWorld (mkExpenseTracker (transactions (self w)) limits)
     (Holds (mkDocument (Some (map save_item (transactions (self w))))
               (Some limits)))).
Proof. reflexivity. Qed.

(** X1. [set_budget_limit] returns normally; afterwards the category maps
    to the new limit and every other category to what it mapped to before;
    an existing key keeps its place in the iteration order and a new one
    goes last; keys stay distinct; the transactions are untouched. *)
Theorem set_budget_limit_spec w (cat : string) (limit : num) :
  let w1 := snd (set_budget_limit cat limit w) in
  fst (set_budget_limit cat limit w) = Return tt /\
  dict_lookup (budget_limits (self w1)) cat = Some limit /\
  (forall c, c <> cat ->
     dict_lookup (budget_limits (self w1)) c =
     dict_lookup (budget_limits (self w)) c) /\
  dict_keys (budget_limits (self w1)) =
    (if dict_contains (budget_limits (self w)) cat
     then dict_keys (budget_limits (self w))
     else (dict_keys (budget_limits (self w)) ++ [cat])%list) /\
  (NoDup (dict_keys (budget_limits (self w))) ->
   NoDup (dict_keys (budget_limits (self w1)))) /\
  transactions (self w1) = transactions (self w).
Proof.
  cbv zeta. rewrite set_budget_limit_run. cbv zeta. simpl.
  split; [reflexivity|]. split.
  { rewrite dict_lookup_setitem, String.eqb_refl. reflexivity. }
  split.
  { intros c Hc. rewrite dict_lookup_setitem.
    destruct (String.eqb cat c) eqn:E; [|reflexivity].
    apply String.eqb_eq in E. congruence. }
  split; [apply dict_keys_setitem|].
  split; [apply dict_setitem_NoDup | reflexivity].
Qed.

(** ** Persistence after a command *)

(** The file [save_data] writes from the state [s]. *)
Lemma save_data_run w :
  save_data w =
  (Return tt,
   mkWorld (self w)
     (Holds (mkDocument (Some (map save_item (transactions (self w))))
               (Some (budget_limits (self w)))))).
Proof. destruct w as [[txs limits] file]. reflexivity. Qed.

Lemma init_from_saved (s : @ExpenseTracker num) :
  let file := Holds (mkDocument (Some (map save_item (transactions s)))
                       (Some (budget_limits s))) in
  ExpenseTracker_init file = (Return tt, mkWorld s file).
Proof.
  cbv zeta.
  unfold ExpenseTracker_init, load_data, try_except_FileNotFound, bind,
    read_document, lift. simpl.
  rewrite load_save_items. destruct s. reflexivity.
Qed.

(** X2. Whenever one of the commands [add_transaction],
    [set_budget_limit] and [delete_transaction] returns normally, so that
    its write has completed, the file holds the state in memory: a tracker
    constructed from that file starts with exactly the transactions and the
    budget limits the command left. *)
Theorem commands_persist w :
  (forall (today : string) (k : TransactionType) (a : num)
          (cat desc : string) (tg : option (list string)) t w1,
     add_transaction today k a cat desc tg w = (Return t, w1) ->
     ExpenseTracker_init (disk w1) = (Return tt, w1)) /\
  (forall (cat : string) (limit : num) w1,
     set_budget_limit cat limit w = (Return tt, w1) ->
     ExpenseTracker_init (disk w1) = (Return tt, w1)) /\
  (forall (tid : Z) w1,
     delete_transaction tid w = (Return tt, w1) ->
     ExpenseTracker_init (disk w1) = (Return tt, w1)).
Proof.
  split; [|split].
  - intros today k a cat desc tg t w1.
    destruct (add_transaction_run w today k a cat desc tg) as (n & _ & Hrun).
    cbv zeta in Hrun. rewrite Hrun. intros [= _ <-]. simpl.
    exact (init_from_saved (mkExpenseTracker _ _)).
  - intros cat limit w1. rewrite set_budget_limit_run. cbv zeta.
    intros [= <-]. simpl. exact (init_from_saved (mkExpenseTracker _ _)).
  - intros tid w1. rewrite delete_transaction_run. cbv zeta.
    intros [= <-]. simpl. exact (init_from_saved (mkExpenseTracker _ _)).
Qed.

(** ** Monthly summary *)

Lemma dict_get_setitem_same {V : Type} (d : pydict V) (k : string) (v def : V) :
  dict_get (dict_setitem d k v) k def = v.
Proof.
  unfold dict_get. rewrite dict_lookup_setitem, String.eqb_refl. reflexivity.
Qed.

(** One turn of the loop of [get_monthly_summary], read through lookups. *)
Lemma monthly_summary_body_lookup (acc : pydict (@MonthTotals num)) t :
  NoDup (dict_keys acc) ->
  NoDup (dict_keys (monthly_summary_body acc t)) /\
  forall m,
    dict_lookup (monthly_summary_body acc t) m =
    if String.eqb (month_key t) m then
      let e := dict_get acc (month_key t) (mkMonthTotals (lit 0) (lit 0)) in
      Some (if is_kind INCOME t
            then mkMonthTotals (add (income e) (amount t)) (expenses e)
            else mkMonthTotals (income e) (add (expenses e) (amount t)))
    else dict_lookup acc m.
Proof.
  intros Hnd. unfold monthly_summary_body, month_key, is_kind.
  set (k := str_take 7 (date t)).
  set (fresh := mkMonthTotals (lit 0) (lit 0)).
  assert (H1 : exists acc1,
    (if dict_contains acc k then acc else dict_setitem acc k fresh) = acc1 /\
    NoDup (dict_keys acc1) /\
    dict_get acc1 k fresh = dict_get acc k fresh /\
    forall m, String.eqb k m = false ->
              dict_lookup acc1 m = dict_lookup acc m).
  { unfold dict_contains. destruct (dict_lookup acc k) eqn:E.
    - exists acc. auto.
    - eexists. split; [reflexivity|]. split; [now apply dict_setitem_NoDup|].
      split.
      + rewrite dict_get_setitem_same. unfold dict_get. now rewrite E.
      + intros m Hm. rewrite dict_lookup_setitem, Hm. reflexivity. }
  destruct H1 as (acc1 & -> & Hnd1 & Hget & Hother).
  rewrite Hget.
  destruct (TransactionType_eqb (type t) INCOME); cbv zeta;
    (split; [now apply dict_setitem_NoDup|]);
    intros m; rewrite dict_lookup_setitem;
    (destruct (String.eqb k m) eqn:E; [reflexivity | now apply Hother]).
Qed.

Lemma monthly_summary_loop (l : list (@Transaction num)) :
  forall acc : pydict (@MonthTotals num),
    NoDup (dict_keys acc) ->
    NoDup (dict_keys (fold_left monthly_summary_body l acc)) /\
    forall m,
      dict_lookup (fold_left monthly_summary_body l acc) m =
      match dict_lookup acc m with
      | Some v =>
          Some (mkMonthTotals
                  (sum_from (income v) (filter (summary_entry m true) l))
                  (sum_from (expenses v) (filter (summary_entry m false) l)))
      | None =>
          if existsb (under_key m) l
          then Some (mkMonthTotals
                       (sum_amounts (filter (summary_entry m true) l))
                       (sum_amounts (filter (summary_entry m false) l)))
          else None
      end.
Proof.
  induction l as [|t l IH]; intros acc Hacc; simpl.
  - split; [assumption|]. intros m.
    destruct (dict_lookup acc m) as [[i e]|]; reflexivity.
  - destruct (monthly_summary_body_lookup acc t Hacc) as [Hnd Hlk].
    destruct (IH _ Hnd) as [Hnd' Hval]. split; [assumption|].
    intros m. rewrite Hval, Hlk.
    unfold summary_entry, under_key, sum_amounts, sum_from, dict_get.
    destruct (String.eqb (month_key t) m) eqn:E; simpl; [|reflexivity].
    apply String.eqb_eq in E. rewrite E.
    destruct (dict_lookup acc m) as [[i e]|];
      destruct (is_kind INCOME t); reflexivity.
Qed.

(** X3. [get_monthly_summary] always returns, whatever the dates look
    like, and leaves the ledger alone.  Its keys are distinct and are
    exactly the first seven characters of the dates in the ledger; under a
    key, [income] is the sum of the INCOME amounts with that key and
    [expenses] the sum of all the others. *)
Theorem get_monthly_summary_spec w :
  exists summary,
    get_monthly_summary w = (Return summary, w) /\
    NoDup (dict_keys summary) /\
    forall m,
      dict_lookup summary m =
      if existsb (under_key m) (transactions (self w))
      then Some (mkMonthTotals
                   (sum_amounts (filter (summary_entry m true)
                                   (transactions (self w))))
                   (sum_amounts (filter (summary_entry m false)
                                   (transactions (self w)))))
      else None.
Proof.
  destruct (monthly_summary_loop (transactions (self w)) [] (NoDup_nil _))
    as [Hnd Hval].
  eexists. split; [reflexivity|]. split; [exact Hnd|].
  intros m. rewrite Hval. reflexivity.
Qed.

(** ** When the queries that parse dates raise *)

Lemma category_spending_body_outcome month (acc : pydict num) t :
  (type t = EXPENSE /\ strptime_Ymd (date t) = None /\
   category_spending_body month acc t = Raise ValueError) \/
  ((type t = EXPENSE -> date_ok t) /\
   exists acc', category_spending_body month acc t = Return acc').
Proof.
  unfold category_spending_body, strptime, date_ok.
  destruct (type t); simpl.
  - right. split; [discriminate | eauto].
  - destruct (strptime_Ymd (date t)) as [d|]; simpl.
    + right. split; [discriminate|].
      destruct (month_matches month d); eauto.
    + left. auto.
Qed.

Lemma category_spending_loop_outcome month (l : list (@Transaction num)) :
  forall acc : pydict num,
    (Forall (fun t => type t = EXPENSE -> date_ok t) l /\
     exists sp, for_each (category_spending_body month) l acc = Return sp) \/
    (Exists (fun t => type t = EXPENSE /\ strptime_Ymd (date t) = None) l /\
     for_each (category_spending_body month) l acc = Raise ValueError).
Proof.
  induction l as [|t l IH]; intros acc; simpl.
  - left. split; [constructor | eauto].
  - destruct (category_spending_body_outcome month acc t)
      as [(Hk & Hd & ->)|(Hok & acc' & ->)].
    + right. split; [left; auto | reflexivity].
    + destruct (IH acc') as [[Hall Hret]|[Hex Hraise]].
      * left. split; [constructor; assumption | exact Hret].
      * right. split; [right; exact Hex | exact Hraise].
Qed.

Lemma malformed_excludes_ok (P : @Transaction num -> Prop)
    (l : list (@Transaction num)) :
  Exists (fun t => P t /\ strptime_Ymd (date t) = None) l ->
  Forall (fun t => P t -> date_ok t) l -> False.
Proof.
  intros Hex Hall. apply Exists_exists in Hex.
  destruct Hex as (t & Hin & Hp & Hnone).
  rewrite Forall_forall in Hall. exact (Hall t Hin Hp Hnone).
Qed.

(** X4. [get_category_spending] and [check_budget_alerts] parse the date of
    every expense and of nothing else.  Either every expense carries a
    calendar day, and then both return, for every month; or some expense
    does not, and then both raise [ValueError], for every month, even with
    no budget limit configured.  The ledger is unchanged either way, and
    the dates of incomes play no part. *)
Theorem category_spending_domain w :
  (expense_dates_ok w \/
   Exists (fun t => type t = EXPENSE /\ strptime_Ymd (date t) = None)
     (transactions (self w))) /\
  (expense_dates_ok w ->
   forall month,
     (exists sp, get_category_spending month w = (Return sp, w)) /\
     (exists alerts, check_budget_alerts month w = (Return alerts, w))) /\
  (Exists (fun t => type t = EXPENSE /\ strptime_Ymd (date t) = None)
     (transactions (self w)) ->
   forall month,
     get_category_spending month w = (Raise ValueError, w) /\
     check_budget_alerts month w = (Raise ValueError, w)).
Proof.
  unfold expense_dates_ok. split; [|split].
  - destruct (category_spending_loop_outcome None (transactions (self w)) [])
      as [[H _]|[H _]]; auto.
  - intros Hok month.
    destruct (category_spending_loop_outcome month (transactions (self w)) [])
      as [[_ [sp Hsp]]|[Hex _]].
    + unfold check_budget_alerts, get_category_spending, bind,
        get_transactions, get_budget_limits, lift, ret. simpl.
      rewrite Hsp. eauto.
    + destruct (malformed_excludes_ok _ _ Hex Hok).
  - intros Hex month.
    destruct (category_spending_loop_outcome month (transactions (self w)) [])
      as [[Hok _]|[_ Hraise]].
    + destruct (malformed_excludes_ok _ _ Hex Hok).
    + unfold check_budget_alerts, get_category_spending, bind,
        get_transactions, lift. simpl. rewrite Hraise. auto.
Qed.

Lemma profit_loss_loop_raises month (l : list (@Transaction num)) :
  Exists (fun t => strptime_Ymd (date t) = None) l ->
  forall totals : num * num,
    for_each (profit_loss_body month) l totals = Raise ValueError.
Proof.
  induction l as [|t l IH]; intros Hex [i e]; [inversion Hex|].
  simpl. unfold profit_loss_body at 1, strptime.
  destruct (strptime_Ymd (date t)) as [d|] eqn:Hd; simpl; [|reflexivity].
  assert (Hl : Exists (fun t => strptime_Ymd (date t) = None) l).
  { inversion Hex; subst; [congruence | assumption]. }
  destruct (month_matches month d), (TransactionType_eqb (type t) INCOME);
    apply IH; exact Hl.
Qed.

Lemma dates_ok_or_malformed (l : list (@Transaction num)) :
  Forall date_ok l \/ Exists (fun t => strptime_Ymd (date t) = None) l.
Proof.
  induction l as [|t l [IH|IH]].
  - left. constructor.
  - destruct (strptime_Ymd (date t)) as [d|] eqn:Hd.
    + left. constructor; [unfold date_ok; congruence | exact IH].
    + right. left. exact Hd.
  - right. right. exact IH.
Qed.

(** X5. [calculate_profit_loss] parses the date of every transaction,
    incomes included.  Either every date is a calendar day and it returns,
    or some date is not and it raises [ValueError], whatever the month; the
    ledger is unchanged either way. *)
Theorem calculate_profit_loss_domain w :
  (dates_ok w \/
   Exists (fun t => strptime_Ymd (date t) = None) (transactions (self w))) /\
  (dates_ok w ->
   forall month, exists r, calculate_profit_loss month w = (Return r, w)) /\
  (Exists (fun t => strptime_Ymd (date t) = None) (transactions (self w)) ->
   forall month, calculate_profit_loss month w = (Raise ValueError, w)).
Proof.
  split; [apply dates_ok_or_malformed|]. split.
  - intros Hok month.
    unfold calculate_profit_loss, bind, get_transactions, lift. simpl.
    rewrite (profit_loss_loop month _ Hok). eexists. reflexivity.
  - intros Hex month.
    unfold calculate_profit_loss, bind, get_transactions, lift. simpl.
    rewrite (profit_loss_loop_raises month _ Hex). reflexivity.
Qed.

(** ** Identifiers under additions and deletions *)

Lemma filter_above_all (n : Z) (l : list (@Transaction num)) :
  (forall u, In u l -> id u < n) ->
  filter (fun u => negb (id u =? n)) l = l.
Proof.
  intros H. apply filter_id. intros u Hu.
  apply negb_true_iff, Z.eqb_neq. specialize (H u Hu). lia.
Qed.

(** The next id is read off the transaction list alone. *)
Lemma get_next_id_same_list w w' :
  transactions (self w) = transactions (self w') ->
  fst (get_next_id w) = fst (get_next_id w').
Proof.
  intros H. unfold get_next_id, bind, get_transactions. simpl.
  rewrite H. destruct (map id (transactions (self w'))); reflexivity.
Qed.

Lemma next_id_after_append w w' (n : Z) t :
  get_next_id w = (Return n, w) ->
  transactions (self w') = (transactions (self w) ++ [t])%list ->
  id t = n ->
  get_next_id w' = (Return (n + 1), w').
Proof.
  intros Hn Hl Hid.
  destruct (get_next_id_spec w) as (n0 & Hn0 & _ & Hlt & _).
  rewrite Hn in Hn0. injection Hn0 as <-.
  destruct (get_next_id_spec w') as (n' & Hn' & _ & Hlt' & Hmax').
  rewrite Hn'. rewrite Hl in *.
  assert (Ht : n < n').
  { rewrite <- Hid. apply Hlt'. apply in_or_app. right. left. reflexivity. }
  destruct Hmax' as (u & Hu & ->); [now destruct (transactions (self w))|].
  apply in_app_or in Hu. destruct Hu as [Hu|[<-|[]]].
  - specialize (Hlt u Hu). lia.
  - now rewrite Hid.
Qed.

(** X6. Deleting the record [add_transaction] has just returned puts the
    transaction list back as it was before the addition, budget limits
    untouched, and the next [add_transaction] hands out the same id
    again: ids are unique among the records present, not over time. *)
Theorem add_then_delete w (today : string) (k : TransactionType) (a : num)
    (cat desc : string) (tg : option (list string)) :
  exists t w1,
    add_transaction today k a cat desc tg w = (Return t, w1) /\
    let w2 := snd (delete_transaction (id t) w1) in
    transactions (self w2) = transactions (self w) /\
    budget_limits (self w2) = budget_limits (self w) /\
    forall (today' : string) (k' : TransactionType) (a' : num)
           (cat' desc' : string) (tg' : option (list string)),
      exists t',
        fst (add_transaction today' k' a' cat' desc' tg' w2) = Return t' /\
        id t' = id t.
Proof.
  destruct (add_transaction_run w today k a cat desc tg) as (n & Hn & Hrun).
  cbv zeta in Hrun.
  destruct (get_next_id_spec w) as (n0 & Hn0 & _ & Hlt & _).
  rewrite Hn in Hn0. injection Hn0 as <-.
  eexists. eexists. split; [exact Hrun|].
  cbv zeta. rewrite delete_transaction_run. cbv zeta. simpl.
  rewrite filter_app, (filter_above_all n _ Hlt). simpl.
  rewrite Z.eqb_refl. simpl. rewrite app_nil_r.
  split; [reflexivity|]. split; [reflexivity|].
  intros today' k' a' cat' desc' tg'.
  match goal with |- context [add_transaction _ _ _ _ _ _ ?w2] =>
    destruct (add_transaction_run w2 today' k' a' cat' desc' tg')
      as (n' & Hn' & Hrun');
    pose proof (get_next_id_same_list w2 w eq_refl) as Hsame
  end.
  cbv zeta in Hrun'. rewrite Hrun'. simpl.
  rewrite Hn', Hn in Hsame. simpl in Hsame. injection Hsame as ->.
  eexists. split; reflexivity.
Qed.

Lemma delete_one (l : list (@Transaction num)) t :
  NoDup (map id l) -> In t l ->
  S (List.length (filter (fun u => negb (id u =? id t)) l)) = List.length l.
Proof.
  induction l as [|x l IH]; intros Hnd Hin; [destruct Hin|].
  simpl in Hnd. apply NoDup_cons_iff in Hnd. destruct Hnd as [Hx Hnd].
  simpl. destruct Hin as [->|Hin].
  - rewrite Z.eqb_refl. simpl. f_equal. f_equal.
    apply filter_id. intros u Hu. apply negb_true_iff, Z.eqb_neq.
    intros E. apply Hx. rewrite <- E. now apply in_map.
  - destruct (id x =? id t) eqn:E; simpl.
    + exfalso. apply Z.eqb_eq in E. apply Hx. rewrite E. now apply in_map.
    + f_equal. now apply IH.
Qed.

(** Filtering keeps the keys of a list distinct. *)
Lemma filter_keeps_distinct {Item Key : Type} (items : list Item)
    (key : Item -> Key) (keep : Item -> bool)
    (Hitems : NoDup (map key items)) :
  NoDup (map key (filter keep items)).
Proof.
  induction items as [|x items IH]; simpl; [constructor|].
  simpl in Hitems. apply NoDup_cons_iff in Hitems.
  destruct Hitems as [Hx Hrest].
  destruct (keep x); simpl; [|auto].
  constructor; [|auto].
  intros Hin. apply Hx. apply in_map_iff in Hin.
  destruct Hin as (y & <- & Hy). apply in_map.
  apply filter_In in Hy. tauto.
Qed.

(** X7. On a ledger whose ids are pairwise distinct, [add_transaction] and
    [delete_transaction] keep them so, and deleting the id of a record that
    is present removes exactly one record. *)
Theorem ids_stay_unique w :
  NoDup (map id (transactions (self w))) ->
  (forall (today : string) (k : TransactionType) (a : num)
          (cat desc : string) (tg : option (list string)),
     NoDup (map id (transactions
                      (self (snd (add_transaction today k a cat desc tg w)))))) /\
  (forall tid : Z,
     NoDup (map id (transactions (self (snd (delete_transaction tid w)))))) /\
  (forall t, In t (transactions (self w)) ->
     S (List.length
          (transactions (self (snd (delete_transaction (id t) w))))) =
     List.length (transactions (self w))).
Proof.
  intros Hnd. split; [|split].
  - intros today k a cat desc tg.
    destruct (add_transaction_run w today k a cat desc tg) as (n & Hn & Hrun).
    cbv zeta in Hrun. rewrite Hrun. simpl.
    destruct (get_next_id_spec w) as (n0 & Hn0 & _ & Hlt & _).
    rewrite Hn in Hn0. injection Hn0 as <-.
    rewrite map_app. simpl. apply NoDup_app; [exact Hnd| |].
    + constructor; [intros []|constructor].
    + intros i Hi [<-|[]]. apply in_map_iff in Hi.
      destruct Hi as (u & Hu & Hin). specialize (Hlt u Hin). lia.
  - intros tid. rewrite delete_transaction_run. simpl.
    now apply filter_keeps_distinct.
  - intros t Hin. rewrite delete_transaction_run. simpl.
    now apply delete_one.
Qed.

(** ** Sequences of additions *)

Lemma add_all_run (calls : list (@AddCall num)) :
  forall w (n : Z),
    get_next_id w = (Return n, w) ->
    map id (fst (add_all calls w)) =
      map (fun i => n + Z.of_nat i) (seq 0 (List.length calls)) /\
    transactions (self (snd (add_all calls w))) =
      (transactions (self w) ++ fst (add_all calls w))%list /\
    budget_limits (self (snd (add_all calls w))) = budget_limits (self w).
Proof.
  induction calls as [|c calls IH]; intros w n Hn; simpl.
  - rewrite app_nil_r. auto.
  - unfold run_add.
    destruct (add_transaction_run w (call_today c) (call_type c)
                (call_amount c) (call_category c) (call_description c)
                (call_tags c)) as (n0 & Hn0 & Hrun).
    rewrite Hn in Hn0. injection Hn0 as <-.
    cbv zeta in Hrun. rewrite Hrun. clear Hrun.
    match goal with |- context [add_all calls ?w1] =>
      assert (Hn1 : get_next_id w1 = (Return (n + 1), w1))
        by (eapply next_id_after_append; [exact Hn | reflexivity..]);
      destruct (IH w1 (n + 1) Hn1) as (Hids & Hl & Hb);
      destruct (add_all calls w1) as [ts w2]
    end.
    simpl in *. split; [|split].
    + rewrite Z.add_0_r. f_equal. rewrite Hids, <- seq_shift, map_map.
      apply map_ext. intros i. lia.
    + rewrite Hl, <- app_assoc. reflexivity.
    + exact Hb.
Qed.

(** X8. A sequence of [add_transaction] calls hands out consecutive ids,
    starting from the id [get_next_id] gives before the first call; the
    records returned are appended to the ledger in call order and the
    budget limits are untouched. *)
Theorem add_all_consecutive w (calls : list (@AddCall num)) :
  exists n,
    fst (get_next_id w) = Return n /\
    map id (fst (add_all calls w)) =
      map (fun i => n + Z.of_nat i) (seq 0 (List.length calls)) /\
    transactions (self (snd (add_all calls w))) =
      (transactions (self w) ++ fst (add_all calls w))%list /\
    budget_limits (self (snd (add_all calls w))) = budget_limits (self w).
Proof.
  destruct (get_next_id_spec w) as (n & Hn & _).
  exists n. rewrite Hn. split; [reflexivity|]. now apply add_all_run.
Qed.

(** ** The order of the alerts *)

Lemma budget_alerts_fold (sp limits : pydict num) :
  forall acc : list (@Alert num),
    fold_left (budget_alerts_body sp) limits acc =
    (acc ++ map (alert_of sp) (filter (exceeded sp) limits))%list.
Proof.
  induction limits as [|[c0 l0] limits IH]; intros acc; simpl.
  - now rewrite app_nil_r.
  - rewrite IH. unfold exceeded at 2, alert_of at 2. simpl.
    destruct (gt (dict_get sp c0 (lit 0)) l0); simpl;
      [rewrite <- app_assoc|]; reflexivity.
Qed.

(** X9. The alerts come in the iteration order of the budget limits: the
    list returned is the list of limit entries, filtered by "spending above
    the limit" and turned into records, so there is at most one alert per
    entry and, the categories of the limits being distinct, at most one per
    category. *)
Theorem check_budget_alerts_order w month :
  expense_dates_ok w ->
  exists sp,
    get_category_spending month w = (Return sp, w) /\
    fst (check_budget_alerts month w) =
      Return (map (alert_of sp)
                (filter (exceeded sp) (budget_limits (self w)))) /\
    (NoDup (dict_keys (budget_limits (self w))) ->
     NoDup (map alert_category
              (map (alert_of sp)
                 (filter (exceeded sp) (budget_limits (self w)))))).
Proof.
  intros Hok.
  destruct (category_spending_loop_outcome month (transactions (self w)) [])
    as [[_ [sp Hsp]]|[Hex _]];
    [|destruct (malformed_excludes_ok _ _ Hex Hok)].
  exists sp.
  assert (Hrun : get_category_spending month w = (Return sp, w)).
  { unfold get_category_spending, bind, get_transactions, lift. simpl.
    now rewrite Hsp. }
  split; [exact Hrun|]. split.
  - unfold check_budget_alerts, bind. rewrite Hrun. simpl.
    now rewrite budget_alerts_fold.
  - intros Hnd. rewrite map_map. simpl.
    change (map (fun x => fst x)) with (@map (string * num) string fst).
    now apply filter_keeps_distinct.
Qed.

(** ** Search, in terms of substrings *)

(** X10. In mode [description] a transaction is returned exactly when its
    lower-cased description can be split around the lower-cased query, in
    mode [tags] exactly when one of its lower-cased tags can, and mode
    [all] returns a transaction exactly when one of the other two does. *)
Theorem search_by_substring w (query : string) :
  exists by_description by_tags by_all,
    fst (search_transactions query "description" w) = Return by_description /\
    fst (search_transactions query "tags" w) = Return by_tags /\
    fst (search_transactions query "all" w) = Return by_all /\
    (forall t,
       In t by_description <->
       In t (transactions (self w)) /\
       exists pre post,
         lower (description t) = (pre ++ lower query ++ post)%string) /\
    (forall t,
       In t by_tags <->
       In t (transactions (self w)) /\
       exists tag pre post,
         In tag (tags t) /\
         lower tag = (pre ++ lower query ++ post)%string) /\
    (forall t, In t by_all <-> In t by_description \/ In t by_tags).
Proof.
  exists (filter (mode_selects ModeDescription query) (transactions (self w))).
  exists (filter (mode_selects ModeTags query) (transactions (self w))).
  exists (filter (mode_selects ModeAll query) (transactions (self w))).
  assert (Hrun : forall m,
    fst (search_transactions query (mode_name m) w) =
    Return (filter (mode_selects m query) (transactions (self w)))).
  { intros m. unfold search_transactions, bind, get_transactions, ret. simpl.
    now rewrite search_loop. }
  split; [exact (Hrun ModeDescription)|].
  split; [exact (Hrun ModeTags)|].
  split; [exact (Hrun ModeAll)|].
  split; [|split]; intros t; rewrite ?filter_In; simpl.
  - unfold description_matches. now rewrite str_in_spec.
  - unfold tags_match. rewrite existsb_exists. split.
    + intros [Hin (tag & Htag & Hm)]. apply str_in_spec in Hm.
      destruct Hm as (pre & post & Hm). eauto 8.
    + intros [Hin (tag & pre & post & Htag & Hm)]. split; [exact Hin|].
      exists tag. split; [exact Htag|]. apply str_in_spec. eauto.
  - rewrite orb_true_iff. tauto.
Qed.

(** X11. The empty query, [str.lower] mapping the empty string to itself:
    modes [description] and [all] return the whole ledger, mode [tags]
    returns the transactions that have at least one tag. *)
Theorem search_empty_query w :
  lower EmptyString = EmptyString ->
  fst (search_transactions "" "description" w) =
    Return (transactions (self w)) /\
  fst (search_transactions "" "all" w) = Return (transactions (self w)) /\
  fst (search_transactions "" "tags" w) =
    Return (filter (fun t => match tags t with
                             | [] => false
                             | _ :: _ => true
                             end)
              (transactions (self w))).
Proof.
  intros Hlower.
  assert (Hrun : forall m,
    fst (search_transactions "" (mode_name m) w) =
    Return (filter (mode_selects m "") (transactions (self w)))).
  { intros m. unfold search_transactions, bind, get_transactions, ret. simpl.
    now rewrite search_loop. }
  assert (Hd : forall t, description_matches "" t = true).
  { intros t. unfold description_matches. rewrite Hlower.
    apply str_in_spec. exists EmptyString, (lower (description t)).
    reflexivity. }
  assert (Ht : forall t, tags_match "" t =
                         match tags t with
                         | [] => false
                         | _ :: _ => true
                         end).
  { intros t. unfold tags_match. rewrite Hlower.
    destruct (tags t) as [|tag rest]; [reflexivity|]. simpl.
    assert (E : str_in "" (lower tag) = true).
    { apply str_in_spec. exists EmptyString, (lower tag). reflexivity. }
    now rewrite E. }
  split; [|split].
  - etransitivity; [exact (Hrun ModeDescription)|]. f_equal.
    apply filter_id. intros t _. apply Hd.
  - etransitivity; [exact (Hrun ModeAll)|]. f_equal.
    apply filter_id. intros t _. simpl. now rewrite Hd.
  - etransitivity; [exact (Hrun ModeTags)|]. f_equal.
    apply filter_ext. exact Ht.
Qed.

(** ** Which documents load *)

Lemma load_item_ok (item : @TransactionItem num) :
  item_ok item = true ->
  exists t, load_item item = Return t /\ save_item t = normal_item item.
Proof.
  unfold item_ok, load_item, getitem, TransactionType_of_value, obind,
    normal_item, save_item.
  destruct item as [i ty a c d dt tg]. simpl.
  destruct i, ty as [v|], a, c, d, dt; try discriminate.
  destruct (String.eqb v "income") eqn:Ei.
  - apply String.eqb_eq in Ei. subst v. intros _.
    eexists. split; reflexivity.
  - destruct (String.eqb v "expense") eqn:Ee; [|discriminate].
    apply String.eqb_eq in Ee. subst v. intros _.
    eexists. split; reflexivity.
Qed.

Lemma load_item_not_ok (item : @TransactionItem num) :
  item_ok item = false ->
  load_item item = Raise ValueError \/
  exists key,
    In key ["id"; "type"; "amount"; "category"; "description"; "date"]%string /\
    load_item item = Raise (KeyError key).
Proof.
  unfold item_ok, load_item, getitem, TransactionType_of_value, obind.
  destruct item as [i ty a c d dt tg]. simpl.
  destruct i; [|right; eexists; split; [|reflexivity]; simpl; tauto].
  destruct ty as [v|]; [|right; eexists; split; [|reflexivity]; simpl; tauto].
  destruct (String.eqb v "income"), (String.eqb v "expense"); simpl;
    try (intros _; left; reflexivity);
    (destruct a; [|intros _; right; eexists; split; [|reflexivity]; simpl; tauto]);
    (destruct c; [|intros _; right; eexists; split; [|reflexivity]; simpl; tauto]);
    (destruct d; [|intros _; right; eexists; split; [|reflexivity]; simpl; tauto]);
    (destruct dt; [|intros _; right; eexists; split; [|reflexivity]; simpl; tauto]);
    discriminate.
Qed.

Lemma comprehension_ok (items : list (@TransactionItem num)) :
  Forall (fun item => item_ok item = true) items ->
  exists txs,
    comprehension load_item items = Return txs /\
    map save_item txs = map normal_item items.
Proof.
  induction 1 as [|item items Hi Hl (txs & Hrun & Hsave)]; simpl.
  - exists []. auto.
  - destruct (load_item_ok item Hi) as (t & -> & Ht). simpl.
    rewrite Hrun. simpl. exists (t :: txs). simpl. now rewrite Ht, Hsave.
Qed.

Lemma comprehension_first_failure (good rest : list (@TransactionItem num))
    (bad : @TransactionItem num) (e : exn) :
  Forall (fun item => item_ok item = true) good ->
  load_item bad = Raise e ->
  comprehension load_item (good ++ bad :: rest) = Raise e.
Proof.
  induction 1 as [|item good Hi Hl IH]; intros Hbad; simpl.
  - now rewrite Hbad.
  - destruct (load_item_ok item Hi) as (t & -> & _). simpl.
    now rewrite (IH Hbad).
Qed.

(** X12. A document loads exactly when every element of its transaction
    array has the six keys [id], [type], [amount], [category],
    [description], [date] and a kind that is ["income"] or ["expense"]
    (the key [tags] may be absent and then means no tags).  Otherwise
    [load_data] raises the error of the first offending element, a
    [KeyError] for one of the six keys or a [ValueError] for the kind, and
    leaves the object and the file as they were. *)
Theorem load_data_domain w (doc : @Document num) :
  disk w = Holds doc ->
  (Forall (fun item => item_ok item = true)
     (get_default (doc_transactions doc) []) ->
   exists txs,
     load_data w =
       (Return tt,
        mkWorld (mkExpenseTracker txs (get_default (doc_budget_limits doc) []))
          (disk w)) /\
     map save_item txs =
       map normal_item (get_default (doc_transactions doc) [])) /\
  (forall good bad rest,
     get_default (doc_transactions doc) [] = (good ++ bad :: rest)%list ->
     Forall (fun item => item_ok item = true) good ->
     item_ok bad = false ->
     exists e,
       load_item bad = Raise e /\
       load_data w = (Raise e, w) /\
       (e = ValueError \/
        exists key,
          In key ["id"; "type"; "amount"; "category"; "description";
                  "date"]%string /\
          e = KeyError key)).
Proof.
  intros Hdisk.
  unfold load_data, try_except_FileNotFound, bind, read_document, lift,
    set_transactions, set_budget_limits.
  destruct w as [s d]. simpl in *. subst d. split.
  - intros Hok. destruct (comprehension_ok _ Hok) as (txs & Hrun & Hsave).
    exists txs. rewrite Hrun. simpl. split; [reflexivity | exact Hsave].
  - intros good bad rest Hitems Hgood Hbad. rewrite Hitems.
    destruct (load_item_not_ok bad Hbad) as [He|(key & Hkey & He)].
    + exists ValueError. split; [exact He|].
      rewrite (comprehension_first_failure good rest bad _ Hgood He).
      simpl. split; [reflexivity|]. left. reflexivity.
    + exists (KeyError key). split; [exact He|].
      rewrite (comprehension_first_failure good rest bad _ Hgood He).
      simpl. split; [reflexivity|]. right. exists key. auto.
Qed.

(** X13. Loading a document and saving again rewrites the file in normal
    form and changes nothing else: absent top-level keys become explicit
    empty collections, every transaction gets an explicit [tags] key, and
    all other keys and values are written back as they were read. *)
Theorem load_then_save w w1 (doc : @Document num) :
  disk w = Holds doc ->
  load_data w = (Return tt, w1) ->
  fst (save_data w1) = Return tt /\
  self (snd (save_data w1)) = self w1 /\
  disk (snd (save_data w1)) = Holds (normal_document doc).
Proof.
  intros Hdisk Hload. rewrite save_data_run. simpl.
  split; [reflexivity|]. split; [reflexivity|].
  revert Hload.
  unfold load_data, try_except_FileNotFound, bind, read_document, lift,
    set_transactions, set_budget_limits.
  destruct w as [s d]. simpl in *. subst d.
  destruct (comprehension load_item (get_default (doc_transactions doc) []))
    as [txs|e] eqn:Hrun; simpl.
  - intros [= <-]. simpl. unfold normal_document. do 2 f_equal.
    f_equal. clear s.
    revert txs Hrun.
    induction (get_default (doc_transactions doc) []) as [|item items IH];
      simpl; intros txs Hrun.
    + injection Hrun as <-. reflexivity.
    + destruct (item_ok item) eqn:Hi.
      * destruct (load_item_ok item Hi) as (t & Ht & Hs).
        rewrite Ht in Hrun. simpl in Hrun.
        destruct (comprehension load_item items) as [ts|e]; simpl in Hrun;
          [|discriminate].
        injection Hrun as <-. simpl. rewrite Hs. f_equal. now apply IH.
      * destruct (load_item_not_ok item Hi) as [He|(key & _ & He)];
          rewrite He in Hrun; discriminate.
  - pose proof (comprehension_not_FileNotFound
                  (get_default (doc_transactions doc) [])) as Hnf.
    rewrite Hrun in Hnf. destruct e; try discriminate. congruence.
Qed.

(** ** The order of the keys *)

Lemma dict_contains_mem {V : Type} (d : pydict V) (k : string) :
  dict_contains d k = str_mem k (dict_keys d).
Proof.
  unfold dict_contains, str_mem, dict_keys.
  induction d as [|[k' v'] d IH]; simpl; [reflexivity|].
  rewrite (String.eqb_sym k k').
  destruct (String.eqb k' k); simpl; [reflexivity | exact IH].
Qed.

Lemma dict_keys_setitem_first_seen {V : Type} (d : pydict V) (k : string)
    (v : V) (rest : list string) :
  (dict_keys (dict_setitem d k v) ++
   first_seen (dict_keys (dict_setitem d k v)) rest)%list =
  (dict_keys d ++ first_seen (dict_keys d) (k :: rest))%list.
Proof.
  rewrite dict_keys_setitem, dict_contains_mem. simpl.
  destruct (str_mem k (dict_keys d)); [reflexivity|].
  now rewrite <- app_assoc.
Qed.

Lemma category_spending_loop_keys month (l : list (@Transaction num)) :
  Forall date_ok l ->
  forall acc sp : pydict num,
    for_each (category_spending_body month) l acc = Return sp ->
    dict_keys sp =
    (dict_keys acc ++
     first_seen (dict_keys acc)
       (map category (filter (kind_in_range month EXPENSE) l)))%list.
Proof.
  induction 1 as [|t l Ht Hl IH]; intros acc sp.
  - simpl. intros [= <-]. now rewrite app_nil_r.
  - destruct (strptime_ok t Ht) as [d Hd].
    assert (Hk : kind_in_range month EXPENSE t =
                 TransactionType_eqb (type t) EXPENSE && month_matches month d).
    { unfold kind_in_range, is_kind.
      now rewrite (in_range_parsed month t d Hd). }
    simpl. rewrite Hk.
    unfold category_spending_body at 1, strptime. rewrite Hd. simpl.
    destruct (TransactionType_eqb (type t) EXPENSE); simpl; [|apply IH].
    destruct (month_matches month d); simpl; [|apply IH].
    intros Hrun. rewrite (IH _ _ Hrun).
    apply dict_keys_setitem_first_seen.
Qed.

Lemma monthly_summary_body_keys (acc : pydict (@MonthTotals num)) t :
  dict_keys (monthly_summary_body acc t) =
  dict_keys (dict_setitem acc (month_key t) (mkMonthTotals (lit 0) (lit 0))).
Proof.
  unfold monthly_summary_body, month_key.
  set (k := str_take 7 (date t)).
  set (fresh := mkMonthTotals (lit 0) (lit 0)).
  assert (Hkeys : forall (d : pydict (@MonthTotals num)) v,
            dict_contains d k = true ->
            dict_keys (dict_setitem d k v) = dict_keys d).
  { intros d v Hc. rewrite dict_keys_setitem. now rewrite Hc. }
  assert (Hin : forall (d : pydict (@MonthTotals num)) v,
            dict_contains (dict_setitem d k v) k = true).
  { intros d v. unfold dict_contains.
    now rewrite dict_lookup_setitem, String.eqb_refl. }
  destruct (dict_contains acc k) eqn:E;
    destruct (TransactionType_eqb (type t) INCOME); cbv zeta;
    rewrite ?(Hkeys _ _ E), ?(Hkeys _ _ (Hin _ _)); reflexivity.
Qed.

Lemma monthly_summary_loop_keys (l : list (@Transaction num)) :
  forall acc : pydict (@MonthTotals num),
    dict_keys (fold_left monthly_summary_body l acc) =
    (dict_keys acc ++ first_seen (dict_keys acc) (map month_key l))%list.
Proof.
  induction l as [|t l IH]; intros acc.
  - simpl. now rewrite app_nil_r.
  - cbn [fold_left map]. rewrite IH, monthly_summary_body_keys.
    apply dict_keys_setitem_first_seen.
Qed.

(** X18. The dictionaries come in the order their keys are first met:
    the keys of [get_category_spending] are the categories of the expenses
    in range, each at its first occurrence in the ledger, and the keys of
    [get_monthly_summary] are the year-months of the transactions, each at
    its first occurrence. *)
Theorem dictionaries_in_first_seen_order w month :
  (dates_ok w ->
   exists sp,
     fst (get_category_spending month w) = Return sp /\
     dict_keys sp =
       first_seen []
         (map category
            (filter (kind_in_range month EXPENSE) (transactions (self w))))) /\
  (exists summary,
     fst (get_monthly_summary w) = Return summary /\
     dict_keys summary = first_seen [] (map month_key (transactions (self w)))).
Proof.
  split.
  - intros Hw.
    destruct (category_spending_loop month _ Hw [] (NoDup_nil _))
      as (sp & Hrun & _).
    exists sp. split.
    + unfold get_category_spending, bind, get_transactions, lift. simpl.
      now rewrite Hrun.
    + exact (category_spending_loop_keys month _ Hw _ _ Hrun).
  - eexists. split; [reflexivity|].
    exact (monthly_summary_loop_keys (transactions (self w)) []).
Qed.

(** ** A command followed by a query *)

Lemma for_each_app {A S : Type} (body : S -> A -> Outcome S)
    (l1 l2 : list A) :
  forall s : S,
    for_each body (l1 ++ l2) s =
    match for_each body l1 s with
    | Return s' => for_each body l2 s'
    | Raise e => Raise e
    end.
Proof.
  induction l1 as [|x l1 IH]; intros s; simpl; [reflexivity|].
  destruct (body s x); [apply IH | reflexivity].
Qed.

(** X19. Adding a transaction dated with a calendar day changes the
    aggregates by that transaction alone: the category spending of a month
    gains the amount under the category when the record is an expense of
    that month and is otherwise the same dictionary, and the totals of
    profit and loss gain the amount on the side of the record's kind when
    its day falls in the month. *)
Theorem add_transaction_updates_aggregates w (today : string)
    (k : TransactionType) (a : num) (cat desc : string)
    (tg : option (list string)) month (d : datetime) :
  dates_ok w ->
  strptime_Ymd today = Some d ->
  let w1 := snd (add_transaction today k a cat desc tg w) in
  exists sp r r1,
    get_category_spending month w = (Return sp, w) /\
    calculate_profit_loss month w = (Return r, w) /\
    fst (get_category_spending month w1) =
      Return (if TransactionType_eqb k EXPENSE && month_matches month d
              then dict_setitem sp cat (add (dict_get sp cat (lit 0)) a)
              else sp) /\
    fst (calculate_profit_loss month w1) = Return r1 /\
    total_income r1 =
      (if month_matches month d && TransactionType_eqb k INCOME
       then add (total_income r) a else total_income r) /\
    total_expenses r1 =
      (if month_matches month d && negb (TransactionType_eqb k INCOME)
       then add (total_expenses r) a else total_expenses r).
Proof.
  intros Hw Hd.
  destruct (add_transaction_run w today k a cat desc tg) as (n & _ & Hrun).
  cbv zeta in *. rewrite Hrun. clear Hrun. simpl.
  destruct (category_spending_loop month _ Hw [] (NoDup_nil _))
    as (sp & Hsp & _).
  pose proof (profit_loss_loop month _ Hw (lit 0) (lit 0)) as Hpl.
  exists sp. eexists.
  destruct (month_matches month d) eqn:Em; destruct k; eexists;
    unfold get_category_spending, calculate_profit_loss, bind,
      get_transactions, lift; simpl;
    rewrite !for_each_app, Hsp, Hpl; simpl;
    unfold category_spending_body, profit_loss_body, strptime; simpl;
    rewrite Hd; simpl; rewrite ?Em; simpl;
    repeat (split; [reflexivity|]); reflexivity.
Qed.

Lemma dict_setitem_In {V : Type} (d : pydict V) (k c : string) (v l : V) :
  NoDup (dict_keys d) ->
  In (c, l) (dict_setitem d k v) <->
  (c = k /\ l = v) \/ (c <> k /\ In (c, l) d).
Proof.
  unfold dict_keys.
  induction d as [|[k' v'] d IH]; simpl; intros Hnd.
  - split.
    + intros [[= <- <-]|[]]. auto.
    + intros [[-> ->]|[_ []]]. auto.
  - apply NoDup_cons_iff in Hnd. destruct Hnd as [Hk Hnd].
    destruct (String.eqb k' k) eqn:E; simpl.
    + apply String.eqb_eq in E. subst k'. split.
      * intros [[= <- <-]|Hin]; [auto|].
        right. split; [|auto]. intros ->. apply Hk.
        apply in_map_iff. exists (k, l). auto.
      * intros [[-> ->]|[Hne [[= <- <-]|Hin]]]; auto. contradiction.
    + apply String.eqb_neq in E. rewrite (IH Hnd). split.
      * intros [[= <- <-]|[[-> ->]|[Hne Hin]]]; auto.
      * intros [[-> ->]|[Hne [[= <- <-]|Hin]]]; auto.
Qed.

(** X20. Setting the limit of a category, on limits with distinct keys,
    changes only the alerts of that category: afterwards the category is
    alerted exactly when its spending is above the new limit, with the
    record built from the new limit, and the alerts of every other category
    are the same as before. *)
Theorem set_budget_limit_then_alerts w (cat : string) (limit : num) month :
  expense_dates_ok w ->
  NoDup (dict_keys (budget_limits (self w))) ->
  let w1 := snd (set_budget_limit cat limit w) in
  exists sp alerts alerts1,
    get_category_spending month w = (Return sp, w) /\
    fst (check_budget_alerts month w) = Return alerts /\
    fst (check_budget_alerts month w1) = Return alerts1 /\
    (forall a, alert_category a <> cat -> (In a alerts1 <-> In a alerts)) /\
    (forall a, alert_category a = cat ->
       (In a alerts1 <->
        gt (dict_get sp cat (lit 0)) limit = true /\
        a = alert_of sp (cat, limit))).
Proof.
  intros Hok Hnd. cbv zeta. rewrite set_budget_limit_run. cbv zeta. simpl.
  destruct (category_spending_loop_outcome month (transactions (self w)) [])
    as [[_ [sp Hsp]]|[Hex _]];
    [|destruct (malformed_excludes_ok _ _ Hex Hok)].
  exists sp.
  exists (map (alert_of sp) (filter (exceeded sp) (budget_limits (self w)))).
  exists (map (alert_of sp)
            (filter (exceeded sp)
               (dict_setitem (budget_limits (self w)) cat limit))).
  unfold check_budget_alerts, get_category_spending, bind, get_transactions,
    get_budget_limits, lift, ret. simpl. rewrite Hsp. simpl.
  rewrite !budget_alerts_fold. simpl.
  split; [reflexivity|]. split; [reflexivity|]. split; [reflexivity|].
  assert (Hin : forall (limits : pydict num) a,
    In a (map (alert_of sp) (filter (exceeded sp) limits)) <->
    exists c l, In (c, l) limits /\ exceeded sp (c, l) = true /\
                a = alert_of sp (c, l)).
  { intros limits a. rewrite in_map_iff. split.
    - intros ([c l] & <- & Hf). apply filter_In in Hf. exists c, l. tauto.
    - intros (c & l & Hi & He & ->). exists (c, l). split; [reflexivity|].
      apply filter_In. auto. }
  split.
  - intros a Ha. rewrite !Hin. split.
    + intros (c & l & Hi & He & ->). simpl in Ha.
      apply (dict_setitem_In _ cat c limit l Hnd) in Hi.
      destruct Hi as [[-> _]|[_ Hi]]; [contradiction|]. eauto.
    + intros (c & l & Hi & He & ->). simpl in Ha.
      exists c, l. split; [|auto].
      apply (dict_setitem_In _ cat c limit l Hnd). auto.
  - intros a Ha. rewrite Hin. split.
    + intros (c & l & Hi & He & ->). simpl in Ha. subst c.
      apply (dict_setitem_In _ cat cat limit l Hnd) in Hi.
      destruct Hi as [[_ ->]|[Hne _]]; [|contradiction]. auto.
    + intros [Hg ->]. exists cat, limit. split; [|auto].
      apply (dict_setitem_In _ cat cat limit limit Hnd). auto.
Qed.

Lemma filter_comm {A : Type} (p q : A -> bool) (l : list A) :
  filter p (filter q l) = filter q (filter p l).
Proof.
  induction l as [|x l IH]; simpl; [reflexivity|].
  destruct (p x) eqn:Ep, (q x) eqn:Eq; simpl; rewrite ?Ep, ?Eq, IH;
    reflexivity.
Qed.

(** X21. Deletions commute: deleting two ids in either order leaves the
    same ledger and the same file. *)
Theorem delete_transaction_commutes w (a b : Z) :
  snd (delete_transaction a (snd (delete_transaction b w))) =
  snd (delete_transaction b (snd (delete_transaction a w))).
Proof.
  rewrite !delete_transaction_run. cbv zeta. simpl.
  rewrite (filter_comm (fun t => negb (id t =? a))). reflexivity.
Qed.

End FurtherProperties.

(** * The report and the month list *)

(** ** The order of strings *)

Lemma ltb_trans (a b c : string) :
  String.ltb a b = true -> String.ltb b c = true -> String.ltb a c = true.
Proof.
  unfold String.ltb. intros Hab Hbc.
  destruct (String.compare a b) eqn:Eab; try discriminate.
  destruct (String.compare b c) eqn:Ebc; try discriminate.
  apply OrderedTypeEx.String_as_OT.cmp_lt in Eab, Ebc.
  pose proof (OrderedTypeEx.String_as_OT.lt_trans _ _ _ Eab Ebc) as Hac.
  apply OrderedTypeEx.String_as_OT.cmp_lt in Hac.
  unfold OrderedTypeEx.String_as_OT.cmp in Hac. now rewrite Hac.
Qed.

Lemma leb_neq_ltb (a b : string) :
  String.leb a b = true -> a <> b -> String.ltb a b = true.
Proof.
  unfold String.leb, String.ltb. intros Hle Hne.
  destruct (String.compare a b) eqn:E; try discriminate; [|reflexivity].
  apply String.compare_eq_iff in E. contradiction.
Qed.

Lemma leb_false_ltb (a b : string) :
  String.leb a b = false -> String.ltb b a = true.
Proof.
  unfold String.leb, String.ltb. rewrite (String.compare_antisym b a).
  destruct (String.compare a b); simpl; congruence.
Qed.

Lemma insert_reverse_spec (x : string) (l : list string) :
  StronglySorted (fun a b => String.ltb b a = true) l ->
  ~ In x l ->
  StronglySorted (fun a b => String.ltb b a = true) (insert_reverse x l) /\
  forall y, In y (insert_reverse x l) <-> y = x \/ In y l.
Proof.
  induction 1 as [|y l Hs IH Hy]; intros Hx; simpl.
  - split; [repeat constructor | intros y; simpl; intuition].
  - destruct (String.leb y x) eqn:E.
    + split; [|intros z; simpl; intuition].
      assert (Hyx : String.ltb y x = true).
      { apply leb_neq_ltb; [exact E|]. intros ->. apply Hx. now left. }
      constructor; [constructor; assumption|].
      constructor; [exact Hyx|].
      rewrite Forall_forall in *. intros z Hz.
      eapply ltb_trans; [apply Hy; exact Hz | exact Hyx].
    + destruct IH as [IHs IHin]; [intros H; apply Hx; now right|].
      split.
      * constructor; [exact IHs|].
        rewrite Forall_forall in *. intros z Hz. apply IHin in Hz.
        destruct Hz as [->|Hz]; [now apply leb_false_ltb | now apply Hy].
      * intros z. simpl. rewrite IHin. tauto.
Qed.

Lemma sorted_reverse_spec (l : list string) :
  NoDup l ->
  StronglySorted (fun a b => String.ltb b a = true) (sorted_reverse l) /\
  forall y, In y (sorted_reverse l) <-> In y l.
Proof.
  induction 1 as [|x l Hx Hnd [IHs IHin]]; simpl.
  - split; [constructor | tauto].
  - destruct (insert_reverse_spec x (sorted_reverse l) IHs) as [Hs Hin].
    + now rewrite IHin.
    + split; [exact Hs|]. intros y. rewrite Hin, IHin.
      split; intros [H|H]; auto.
Qed.

Section ReportProperties.

Context {num : Type} {NUM : PyNum num} {LIB : PyLib} {PLOT : PyPlot num}.

Implicit Types (w : @World num) (t : @Transaction num)
  (month : option string).

Lemma month_set_spec (l : list (@Transaction num)) :
  forall acc : list string,
    NoDup acc ->
    let months := fold_left (fun months t => set_add (str_take 7 (date t)) months)
                    l acc in
    NoDup months /\
    forall m, In m months <->
              In m acc \/ exists t, In t l /\ str_take 7 (date t) = m.
Proof.
  induction l as [|t l IH]; intros acc Hacc; simpl.
  - split; [exact Hacc|]. intros m. split; [auto|].
    intros [H|(t & [] & _)]. exact H.
  - assert (Hadd : NoDup (set_add (str_take 7 (date t)) acc) /\
                   forall m, In m (set_add (str_take 7 (date t)) acc) <->
                             In m acc \/ str_take 7 (date t) = m).
    { unfold set_add, str_mem.
      destruct (existsb (String.eqb (str_take 7 (date t))) acc) eqn:E.
      - split; [exact Hacc|]. intros m. split; [auto|].
        intros [H|<-]; [exact H|].
        apply existsb_exists in E. destruct E as (y & Hy & Heq).
        apply String.eqb_eq in Heq. now subst.
      - split.
        + apply NoDup_app; [exact Hacc | repeat constructor; simpl; tauto|].
          intros y Hy [<-|[]].
          assert (Ht : existsb (String.eqb (str_take 7 (date t))) acc = true).
          { apply existsb_exists. exists (str_take 7 (date t)).
            split; [exact Hy | apply String.eqb_refl]. }
          congruence.
        + intros m. rewrite in_app_iff. simpl. tauto. }
    destruct Hadd as [Hnd Hin].
    destruct (IH _ Hnd) as [Hnd' Hin']. cbv zeta in *.
    split; [exact Hnd'|]. intros m. rewrite Hin', Hin. split.
    + intros [[H|H]|(u & Hu & Hm)]; [auto| |].
      * right. exists t. auto.
      * right. exists u. auto.
    + intros [H|(u & [<-|Hu] & Hm)]; [auto|auto|].
      right. exists u. auto.
Qed.

(** X14. [get_available_months] always returns and leaves the ledger
    alone; the list holds exactly the first seven characters of the dates
    of the ledger, each once, in strictly decreasing order. *)
Theorem get_available_months_spec w :
  exists months,
    get_available_months w = (Return months, w) /\
    (forall m, In m months <->
               exists t, In t (transactions (self w)) /\
                         str_take 7 (date t) = m) /\
    StronglySorted (fun a b => String.ltb b a = true) months.
Proof.
  destruct (month_set_spec (transactions (self w)) [] (NoDup_nil _))
    as [Hnd Hin]. cbv zeta in *.
  destruct (sorted_reverse_spec _ Hnd) as [Hs Hin'].
  eexists. split; [reflexivity|]. split; [|exact Hs].
  intros m. rewrite Hin', Hin. simpl. tauto.
Qed.

Lemma spending_empty_iff month (l : list (@Transaction num)) (sp : pydict num) :
  (forall c, dict_lookup sp c =
             if existsb (expense_of month c) l
             then Some (sum_amounts (filter (expense_of month c) l))
             else None) ->
  sp = [] <-> existsb (kind_in_range month EXPENSE) l = false.
Proof.
  intros Hval. split.
  - intros ->. destruct (existsb (kind_in_range month EXPENSE) l) eqn:E;
      [|reflexivity].
    apply existsb_exists in E. destruct E as (t & Ht & Hk).
    specialize (Hval (category t)). simpl in Hval.
    assert (Hc : existsb (expense_of month (category t)) l = true).
    { apply existsb_exists. exists t. split; [exact Ht|].
      unfold expense_of. unfold kind_in_range in Hk.
      now rewrite Hk, String.eqb_refl. }
    rewrite Hc in Hval. discriminate.
  - intros Hno. destruct sp as [|[k v] sp]; [reflexivity|].
    specialize (Hval k). simpl in Hval. rewrite String.eqb_refl in Hval.
    destruct (existsb (expense_of month k) l) eqn:E; [|discriminate].
    apply existsb_exists in E. destruct E as (t & Ht & Hk).
    assert (Hc : existsb (kind_in_range month EXPENSE) l = true).
    { apply existsb_exists. exists t. split; [exact Ht|].
      unfold expense_of in Hk. apply andb_prop in Hk. tauto. }
    congruence.
Qed.

(** X15. On a ledger whose dates are calendar days,
    [generate_spending_report] returns [None] without plotting exactly when
    no expense falls in range; otherwise it hands the non-empty category
    spending to the plotting calls and returns their figure, or raises what
    they raise.  The ledger is unchanged in every case. *)
Theorem generate_spending_report_spec w month :
  dates_ok w ->
  exists sp,
    get_category_spending month w = (Return sp, w) /\
    (existsb (kind_in_range month EXPENSE) (transactions (self w)) = false ->
     sp = [] /\ generate_spending_report month w = (Return None, w)) /\
    (existsb (kind_in_range month EXPENSE) (transactions (self w)) = true ->
     sp <> [] /\
     generate_spending_report month w =
     (match plot_spending sp with
      | Return fig => Return (Some fig)
      | Raise e => Raise e
      end, w)).
Proof.
  intros Hw.
  destruct (category_spending_loop month _ Hw [] (NoDup_nil _))
    as (sp & Hrun & _ & Hval).
  simpl in Hval.
  pose proof (spending_empty_iff month _ sp Hval) as Hempty.
  assert (Hgcs : get_category_spending month w = (Return sp, w)).
  { unfold get_category_spending, bind, get_transactions, lift. simpl.
    now rewrite Hrun. }
  exists sp. split; [exact Hgcs|].
  unfold generate_spending_report, bind. rewrite Hgcs. split.
  - intros Hno. apply Hempty in Hno. subst sp. auto.
  - intros Hsome. assert (Hne : sp <> []).
    { intros H. apply Hempty in H. congruence. }
    split; [exact Hne|]. destruct sp as [|entry sp]; [contradiction|].
    unfold lift, ret.
    destruct (plot_spending (entry :: sp)); reflexivity.
Qed.

End ReportProperties.

(** * The further properties at work *)

Lemma demo_limits_NoDup : NoDup (dict_keys (budget_limits (self demo_world))).
Proof.
  simpl. repeat constructor; simpl; intros H;
    repeat (destruct H as [H|H]; [discriminate|]); exact H.
Defined.

Lemma commands_persist_witness :
  let w1 := snd (delete_transaction 3 demo_world) in
  delete_transaction 3 demo_world = (Return tt, w1) /\
  ExpenseTracker_init (disk w1) = (Return tt, w1).
Proof.
  cbv zeta.
  assert (Hrun : delete_transaction 3 demo_world =
                 (Return tt, snd (delete_transaction 3 demo_world)))
    by reflexivity.
  split; [exact Hrun|].
  exact (proj2 (proj2 (commands_persist demo_world)) 3 _ Hrun).
Defined.

Lemma set_budget_limit_spec_witness :
  "Transport"%string <> "Food"%string /\
  let w1 := snd (set_budget_limit "Food" (300 # 1) demo_world) in
  dict_lookup (budget_limits (self w1)) "Food" = Some (300 # 1) /\
  dict_lookup (budget_limits (self w1)) "Transport" =
  dict_lookup (budget_limits (self demo_world)) "Transport" /\
  NoDup (dict_keys (budget_limits (self w1))).
Proof.
  assert (Hne : "Transport"%string <> "Food"%string) by discriminate.
  split; [exact Hne|]. cbv zeta.
  destruct (set_budget_limit_spec demo_world "Food" (300 # 1))
    as (_ & Hset & Hother & _ & Hnd & _).
  split; [exact Hset|]. split; [exact (Hother _ Hne)|].
  exact (Hnd demo_limits_NoDup).
Defined.

Lemma category_spending_domain_witness :
  expense_dates_ok demo_world /\
  (exists sp, get_category_spending None demo_world = (Return sp, demo_world)) /\
  Exists (fun t : QTransaction =>
            type t = EXPENSE /\ strptime_Ymd (date t) = None)
    (transactions (self feb30_expense_world)) /\
  check_budget_alerts None feb30_expense_world =
    (Raise ValueError, feb30_expense_world).
Proof.
  assert (Hbad : Exists (fun t : QTransaction =>
                           type t = EXPENSE /\ strptime_Ymd (date t) = None)
                   (transactions (self feb30_expense_world))).
  { left. split; reflexivity. }
  split; [exact demo_expense_dates_ok|].
  split; [|split; [exact Hbad|]].
  - destruct (category_spending_domain demo_world) as (_ & Hret & _).
    exact (proj1 (Hret demo_expense_dates_ok None)).
  - destruct (category_spending_domain feb30_expense_world) as (_ & _ & Hraise).
    exact (proj2 (Hraise Hbad None)).
Defined.

Lemma calculate_profit_loss_domain_witness :
  Exists (fun t : QTransaction => strptime_Ymd (date t) = None)
    (transactions (self feb30_income_world)) /\
  calculate_profit_loss None feb30_income_world =
    (Raise ValueError, feb30_income_world) /\
  dates_ok demo_world /\
  exists r, calculate_profit_loss None demo_world = (Return r, demo_world).
Proof.
  assert (Hbad : Exists (fun t : QTransaction => strptime_Ymd (date t) = None)
                   (transactions (self feb30_income_world))).
  { left. reflexivity. }
  split; [exact Hbad|]. split.
  - destruct (calculate_profit_loss_domain feb30_income_world)
      as (_ & _ & Hraise).
    exact (Hraise Hbad None).
  - split; [exact demo_dates_ok|].
    destruct (calculate_profit_loss_domain demo_world) as (_ & Hret & _).
    exact (Hret demo_dates_ok None).
Defined.

Lemma demo_ids_NoDup : NoDup (map id (transactions (self demo_world))).
Proof.
  simpl. repeat constructor; simpl; intros H;
    repeat (destruct H as [H|H]; [discriminate|]); exact H.
Defined.

Lemma ids_stay_unique_witness :
  NoDup (map id (transactions (self demo_world))) /\
  NoDup (map id (transactions (self (snd (delete_transaction 3 demo_world))))).
Proof.
  split; [exact demo_ids_NoDup|].
  destruct (@ids_stay_unique Q demo_world demo_ids_NoDup) as (_ & Hdel & _).
  exact (Hdel 3).
Defined.

Lemma check_budget_alerts_order_witness :
  expense_dates_ok demo_world /\
  NoDup (dict_keys (budget_limits (self demo_world))) /\
  exists sp,
    fst (check_budget_alerts None demo_world) =
      Return (map (alert_of sp)
                (filter (exceeded sp) (budget_limits (self demo_world)))) /\
    NoDup (map alert_category
             (map (alert_of sp)
                (filter (exceeded sp) (budget_limits (self demo_world))))).
Proof.
  split; [exact demo_expense_dates_ok|]. split; [exact demo_limits_NoDup|].
  destruct (check_budget_alerts_order demo_world None demo_expense_dates_ok)
    as (sp & _ & Hrun & Hnd).
  exists sp. split; [exact Hrun | exact (Hnd demo_limits_NoDup)].
Defined.

Lemma search_empty_query_witness :
  lower EmptyString = EmptyString /\
  fst (search_transactions "" "all" search_world) =
  Return (transactions (self search_world)).
Proof.
  assert (H : lower EmptyString = EmptyString) by reflexivity.
  split; [exact H|].
  exact (proj1 (proj2 (search_empty_query search_world H))).
Defined.

Lemma load_data_domain_witness :
  let w := mkWorld (self demo_world) (Holds no_amount_document) in
  disk w = Holds no_amount_document /\
  Forall (fun item => item_ok item = true) [bare_item] /\
  item_ok no_amount_item = false /\
  load_data w = (Raise (KeyError "amount"), w).
Proof.
  cbv zeta.
  assert (Hgood : Forall (fun item : @TransactionItem Q => item_ok item = true)
                    [bare_item]) by (repeat constructor).
  assert (Hbad : item_ok no_amount_item = false) by reflexivity.
  split; [reflexivity|]. split; [exact Hgood|]. split; [exact Hbad|].
  destruct (load_data_domain
              (mkWorld (self demo_world) (Holds no_amount_document))
              no_amount_document eq_refl) as [_ Hfail].
  destruct (Hfail [bare_item] no_amount_item [transfer_item] eq_refl
              Hgood Hbad) as (e & He & Hload & _).
  rewrite Hload. f_equal. f_equal.
  simpl in He. injection He as <-. reflexivity.
Defined.

Lemma load_then_save_witness :
  let w := mkWorld (self demo_world) (Holds bare_document) in
  exists w1,
    disk w = Holds bare_document /\
    load_data w = (Return tt, w1) /\
    disk (snd (save_data w1)) = Holds (normal_document bare_document).
Proof.
  cbv zeta. eexists. split; [reflexivity|].
  assert (Hload : load_data (mkWorld (self demo_world) (Holds bare_document)) =
                  (Return tt, snd (load_data (mkWorld (self demo_world)
                                                (Holds bare_document)))))
    by reflexivity.
  split; [exact Hload|].
  exact (proj2 (proj2 (load_then_save
                         (mkWorld (self demo_world) (Holds bare_document))
                         _ bare_document eq_refl Hload))).
Defined.

Lemma generate_spending_report_spec_witness :
  dates_ok demo_world /\
  existsb (kind_in_range (Some "2023-01"%string) EXPENSE)
    (transactions (self demo_world)) = false /\
  generate_spending_report (Some "2023-01"%string) demo_world =
    (Return None, demo_world).
Proof.
  assert (Hno : existsb (kind_in_range (Some "2023-01"%string) EXPENSE)
                  (transactions (self demo_world)) = false) by reflexivity.
  split; [exact demo_dates_ok|]. split; [exact Hno|].
  destruct (generate_spending_report_spec demo_world (Some "2023-01"%string)
              demo_dates_ok) as (sp & _ & Hnone & _).
  exact (proj2 (Hnone Hno)).
Defined.

Lemma dictionaries_in_first_seen_order_witness :
  dates_ok demo_world /\
  exists sp,
    fst (get_category_spending None demo_world) = Return sp /\
    dict_keys sp = ["Food"; "Transport"]%string.
Proof.
  split; [exact demo_dates_ok|].
  destruct (proj1 (dictionaries_in_first_seen_order demo_world None)
              demo_dates_ok) as (sp & Hrun & Hkeys).
  exists sp. split; [exact Hrun|]. rewrite Hkeys. reflexivity.
Defined.

Lemma add_transaction_updates_aggregates_witness :
  dates_ok demo_world /\
  strptime_Ymd "2024-03-09" = Some (mkDatetime 2024 3 9) /\
  exists sp,
    get_category_spending None demo_world = (Return sp, demo_world) /\
    fst (get_category_spending None
           (snd (add_transaction "2024-03-09" EXPENSE (100 # 1) "Food"
                   "Dinner" None demo_world))) =
    Return (dict_setitem sp "Food" (add (dict_get sp "Food" (lit 0)) (100 # 1))).
Proof.
  assert (Hd : strptime_Ymd "2024-03-09" = Some (mkDatetime 2024 3 9))
    by reflexivity.
  split; [exact demo_dates_ok|]. split; [exact Hd|].
  destruct (add_transaction_updates_aggregates demo_world "2024-03-09"
              EXPENSE (100 # 1)%Q "Food" "Dinner" None None _
              demo_dates_ok Hd) as (sp & r & r1 & Hsp & _ & Hsp1 & _).
  exists sp. split; [exact Hsp | exact Hsp1].
Defined.

Lemma set_budget_limit_then_alerts_witness :
  expense_dates_ok demo_world /\
  NoDup (dict_keys (budget_limits (self demo_world))) /\
  exists sp alerts1,
    get_category_spending None demo_world = (Return sp, demo_world) /\
    fst (check_budget_alerts None
           (snd (set_budget_limit "Food" (300 # 1) demo_world))) =
      Return alerts1 /\
    forall a, alert_category a = "Food"%string ->
      (In a alerts1 <->
       gt (dict_get sp "Food" (lit 0)) (300 # 1) = true /\
       a = alert_of sp ("Food"%string, 300 # 1)).
Proof.
  split; [exact demo_expense_dates_ok|]. split; [exact demo_limits_NoDup|].
  destruct (set_budget_limit_then_alerts demo_world "Food" (300 # 1)%Q None
              demo_expense_dates_ok demo_limits_NoDup)
    as (sp & alerts & alerts1 & Hsp & _ & Hrun & _ & Hcat).
  exists sp, alerts1. split; [exact Hsp|]. split; [exact Hrun | exact Hcat].
Defined.

(** ** Further examples *)

Example demo_available_months :
  fst (get_available_months demo_world) = Return ["2024-04"; "2024-03"]%string.
Proof. reflexivity. Qed.

Example demo_monthly_summary :
  fst (get_monthly_summary demo_world) =
  Return [ ("2024-03"%string, mkMonthTotals (5500 # 1) (225 # 1));
           ("2024-04"%string, mkMonthTotals (0 # 1) (50 # 1)) ].
Proof. reflexivity. Qed.

Example feb30_income_spending_returns :
  fst (get_category_spending None feb30_income_world) =
  Return [("Food"%string, 20 # 1)].
Proof. reflexivity. Qed.

Example demo_report_plots :
  fst (generate_spending_report None demo_world) =
  Return (Some [("Food"%string, 225 # 1); ("Transport"%string, 50 # 1)]).
Proof. reflexivity. Qed.

Example bare_document_loads :
  load_data (mkWorld (self demo_world) (Holds bare_document)) =
  (Return tt,
   mkWorld
     (mkExpenseTracker
        [mkTransaction 7 EXPENSE (12 # 1) "Transport" "Bus" "2024-03-09" []]
        [])
     (Holds bare_document)).
Proof. reflexivity. Qed.
